(** * predictor_backend: the rule-based match predictor of [api.py]

    A shallow embedding of the aggregation, scoring and formatting code
    behind [POST /predict], followed by the properties stated about it.

    Conventions of the embedding.
    - The pandas frame [df] is a list of rows in file order plus one flag
      that records whether the file had an [xG] column.
    - A float64 cell is [nan] or a finite value; finite values are kept as
      exact rationals, so rounding of the division in a mean is not
      modelled, and no property below rests on the value of a finite mean.
      Integer counts (numpy int64 sums of boolean masks) are [Z].
    - A boolean mask such as [df['Team'] == team] is a predicate on rows;
      [df[mask]] keeps the rows where it holds and [mask.sum()] counts them.
    - A Python [str] is a [string] whose characters are read as the code
      points U+0000 to U+00FF.
    - The parsed request body is a finite map from field names to strings;
      a field that is absent or null is not in the map.
    - The handler's model returns, next to its answer, the calls it made to
      the scorer and to the formatter. *)

From Stdlib Require Import ZArith QArith Qround Qabs List String Ascii Lia Bool.
From Stdlib Require Import Permutation Sorted DecimalString.
From stdpp Require Import gmap strings.
Import ListNotations.

Local Open Scope string_scope.
Local Open Scope Z_scope.

(** ** Cells and columns *)

(** A float64 cell. *)
Inductive number : Type :=
| nan : number
| fin (q : Q) : number.

(** [a > b] on float64: false as soon as one side is not a number. *)
Definition gt (a b : number) : bool :=
  match a, b with
  | fin x, fin y => negb (Qle_bool x y)
  | _, _ => false
  end.

(** One line of [epl_matches_2017_2023.csv]. *)
Record Row : Type := mkRow {
  date : string;
  Team : string;
  Opponent : string;
  Result : string;
  GF : number;
  GA : number;
  xG : number
}.

(** The frame: [has_xG] answers ['xG' in frame]; when it is false the [xG]
    field of the rows is never read. *)
Record DataFrame : Type := mkFrame {
  has_xG : bool;
  rows : list Row
}.

Definition mask : Type := Row -> bool.

(** [df[col] == v] for a column of strings. *)
Definition col_eq (col : Row -> string) (v : string) : mask :=
  fun r => String.eqb (col r) v.

(** [m1 & m2] and [m1 | m2]. *)
Definition mask_and (m1 m2 : mask) : mask := fun r => m1 r && m2 r.
Definition mask_or (m1 m2 : mask) : mask := fun r => m1 r || m2 r.

(** [df[m]]. *)
Definition select (m : mask) (d : DataFrame) : DataFrame :=
  mkFrame (has_xG d) (List.filter m (rows d)).

(** [m.sum()] for a mask [m] built over the frame [d]. *)
Definition mask_sum (m : mask) (d : DataFrame) : Z :=
  Z.of_nat (List.length (List.filter m (rows d))).

(** [len(d)] and [d.empty]. *)
Definition len (d : DataFrame) : nat := List.length (rows d).

Definition empty (d : DataFrame) : bool :=
  match rows d with
  | [] => true
  | _ :: _ => false
  end.

(** [d.head(n)] for [n >= 0]. *)
Definition head (n : nat) (d : DataFrame) : DataFrame :=
  mkFrame (has_xG d) (firstn n (rows d)).

(** *** Sorting by date, most recent first

    [sort_values(by='date', ascending=False)]: dates are the strings of the
    file and compare character by character.  Rows with equal dates keep
    the order of the frame here; pandas leaves that order to the sorting
    algorithm, and the properties below use of sorting only that it
    rearranges the rows it is given. *)
Fixpoint insert_desc (r : Row) (l : list Row) : list Row :=
  match l with
  | [] => [r]
  | y :: l' =>
      if String.ltb (date r) (date y) then y :: insert_desc r l'
      else r :: y :: l'
  end.

Fixpoint sort_desc (l : list Row) : list Row :=
  match l with
  | [] => []
  | r :: l' => insert_desc r (sort_desc l')
  end.

Definition sort_values_date_desc (d : DataFrame) : DataFrame :=
  mkFrame (has_xG d) (sort_desc (rows d)).

(** *** Means

    [Series.mean()] skips the cells that are not a number and is itself not
    a number when nothing is left. *)
Fixpoint finite_cells (l : list number) : list Q :=
  match l with
  | [] => []
  | nan :: l' => finite_cells l'
  | fin q :: l' => q :: finite_cells l'
  end.

Definition Qsum (l : list Q) : Q := fold_right Qplus 0%Q l.

Definition mean_cells (l : list number) : number :=
  match finite_cells l with
  | [] => nan
  | q :: qs =>
      fin (Qred (Qsum (q :: qs) / inject_Z (Z.of_nat (List.length (q :: qs)))))
  end.

(** [d[col].mean()]. *)
Definition mean (col : Row -> number) (d : DataFrame) : number :=
  mean_cells (List.map col (rows d)).

(** ** Form and head-to-head snapshots *)

Module Form.

Record t : Type := mk {
  wins : Z;
  draws : Z;
  losses : Z;
  avg_gf : number;
  avg_ga : number;
  avg_xg : number
}.

End Form.

Module H2H.

Record t : Type := mk {
  home_wins : Z;
  away_wins : Z;
  draws : Z
}.

End H2H.

(** [df[df['Team'] == team].sort_values(by='date', ascending=False).head(n)] *)
Definition recent_matches (df : DataFrame) (team : string) (n : nat) : DataFrame :=
  head n (sort_values_date_desc (select (col_eq Team team) df)).

(** The mask of [get_head_to_head] and of the handler. *)
Definition h2h_mask (home away : string) : mask :=
  mask_or (mask_and (col_eq Team home) (col_eq Opponent away))
          (mask_and (col_eq Team away) (col_eq Opponent home)).

Definition h2h_matches (df : DataFrame) (home away : string) (n : nat) : DataFrame :=
  head n (sort_values_date_desc (select (h2h_mask home away) df)).

Definition get_team_form (df : DataFrame) (team : string) (n : nat) : Form.t :=
  let recent := recent_matches df team n in
  let wins := mask_sum (col_eq Result "W") recent in
  let draws := mask_sum (col_eq Result "D") recent in
  let losses := mask_sum (col_eq Result "L") recent in
  let avg_gf := mean GF recent in
  let avg_ga := mean GA recent in
  let avg_xg := if has_xG recent then mean xG recent else fin 0 in
  Form.mk wins draws losses avg_gf avg_ga avg_xg.

Definition get_head_to_head (df : DataFrame) (home away : string) (n : nat) : H2H.t :=
  let h2h := h2h_matches df home away n in
  let home_wins := mask_sum (mask_and (col_eq Team home) (col_eq Result "W")) h2h in
  let away_wins := mask_sum (mask_and (col_eq Team away) (col_eq Result "W")) h2h in
  let draws := mask_sum (col_eq Result "D") h2h in
  H2H.mk home_wins away_wins draws.

(** ** The scoring rule *)

Definition rule_based_prediction (df : DataFrame) (home_team away_team : string) : string :=
  let home := get_team_form df home_team 5 in
  let away := get_team_form df away_team 5 in
  let h2h := get_head_to_head df home_team away_team 5 in
  let home_score :=
    Form.wins home
    + (if gt (Form.avg_gf home) (Form.avg_ga away) then 1 else 0)
    + (if gt (Form.avg_xg home) (Form.avg_xg away) then 1 else 0)
    + H2H.home_wins h2h in
  let away_score :=
    Form.wins away
    + (if gt (Form.avg_gf away) (Form.avg_ga home) then 1 else 0)
    + (if gt (Form.avg_xg away) (Form.avg_xg home) then 1 else 0)
    + H2H.away_wins h2h in
  let diff := home_score - away_score in
  if diff >=? 2 then home_team ++ " to win"
  else if diff <=? -2 then away_team ++ " to win"
  else "Draw".

(** ** Text

    What the f-strings and the [str] methods of the handler do. *)

Definition code (c : ascii) : N := N_of_ascii c.

(** The line boundaries of [str.splitlines]: LF, VT, FF, CR, FS, GS, RS, NEL. *)
Definition is_line_boundary (c : ascii) : bool :=
  match code c with
  | 10 | 11 | 12 | 13 | 28 | 29 | 30 | 133 => true
  | _ => false
  end%N.

(** [s.splitlines()]: the lines of [s] without their boundaries; CR LF is
    one boundary, and a boundary at the very end opens no further line. *)
Fixpoint splitlines (s : string) : list string :=
  match s with
  | EmptyString => []
  | String c s' =>
      if is_line_boundary c then
        match s' with
        | String c' s'' =>
            if ((code c =? 13) && (code c' =? 10))%N then "" :: splitlines s''
            else "" :: splitlines s'
        | EmptyString => [""]
        end
      else
        match splitlines s' with
        | [] => [String c ""]
        | l :: ls => String c l :: ls
        end
  end.

(** [c.isspace()]. *)
Definition isspace (c : ascii) : bool :=
  match code c with
  | 9 | 10 | 11 | 12 | 13 | 28 | 29 | 30 | 31 | 32 | 133 | 160 => true
  | _ => false
  end%N.

Fixpoint lstrip (s : string) : string :=
  match s with
  | EmptyString => ""
  | String c s' => if isspace c then lstrip s' else s
  end.

Fixpoint rstrip (s : string) : string :=
  match s with
  | EmptyString => ""
  | String c s' =>
      match rstrip s' with
      | EmptyString => if isspace c then "" else String c ""
      | t => String c t
      end
  end.

(** [s.strip()]. *)
Definition strip (s : string) : string := rstrip (lstrip s).

(** [c.lower()]: A-Z and the capital letters of U+00C0 to U+00DE. *)
Definition lower_char (c : ascii) : ascii :=
  let n := code c in
  if ((65 <=? n) && (n <=? 90))%N then ascii_of_N (n + 32)
  else if ((192 <=? n) && (n <=? 222) && negb (n =? 215))%N then ascii_of_N (n + 32)
  else c.

(** [s.lower()]. *)
Fixpoint lower (s : string) : string :=
  match s with
  | EmptyString => ""
  | String c s' => String (lower_char c) (lower s')
  end.

(** [str(n)] for an integer. *)
Definition str_int (z : Z) : string := NilZero.string_of_int (Z.to_int z).

(** Nearest integer, ties to even. *)
Definition round_half_even (q : Q) : Z :=
  let f := Qfloor q in
  match Qcompare (q - inject_Z f) (1 # 2) with
  | Lt => f
  | Gt => f + 1
  | Eq => if Z.even f then f else f + 1
  end.

(** [f"{x:.2f}"]. *)
Definition format_2f (x : number) : string :=
  match x with
  | nan => "nan"
  | fin q =>
      let cents := round_half_even (Qabs q * 100) in
      let frac := cents mod 100 in
      (if Qle_bool 0 q then "" else "-")
      ++ str_int (cents / 100) ++ "."
      ++ (if frac <? 10 then "0" else "") ++ str_int frac
  end.

Definition newline : string := String (ascii_of_N 10) "".

Definition summarize_form (matches : DataFrame) (team_name : string) : string :=
  let wins := mask_sum (col_eq Result "W") matches in
  let draws := mask_sum (col_eq Result "D") matches in
  let losses := mask_sum (col_eq Result "L") matches in
  let avg_goals_for := mean GF matches in
  let avg_goals_against := mean GA matches in
  team_name ++ " - Last " ++ str_int (Z.of_nat (len matches)) ++ " Matches:" ++ newline
  ++ "- Wins: " ++ str_int wins ++ ", Draws: " ++ str_int draws
  ++ ", Losses: " ++ str_int losses ++ newline
  ++ "- Avg Goals Scored: " ++ format_2f avg_goals_for
  ++ ", Avg Goals Conceded: " ++ format_2f avg_goals_against.

Definition summarize_h2h (matches : DataFrame) (home away : string) : string :=
  if empty matches then "No recent head-to-head match data available."
  else
    let total := len matches in
    let home_wins := mask_sum (mask_and (col_eq Team home) (col_eq Result "W")) matches in
    let away_wins := mask_sum (mask_and (col_eq Team away) (col_eq Result "W")) matches in
    let draws := mask_sum (col_eq Result "D") matches in
    "Head-to-Head (" ++ home ++ " vs " ++ away ++ ") - Last "
    ++ str_int (Z.of_nat total) ++ " Matches:" ++ newline
    ++ "- " ++ home ++ " Wins: " ++ str_int home_wins ++ ", " ++ away ++ " Wins: "
    ++ str_int away_wins ++ ", Draws: " ++ str_int draws.

(** ** The handler

    The handler returns a JSON object.  Its model also records which of the
    program's functions it called, in order, and it can stop on the
    [IndexError] of a list subscript. *)

#[warning="-register-all"]
Inductive json : Type :=
| JString (s : string)
| JArray (items : list json)
| JObject (fields : list (string * json)).

Inductive exn : Type :=
| IndexError.

Inductive Step : Type :=
| Scoring (home away : string)
| FormSummary (team : string)
| H2HSummary (home away : string).

Definition Handler (A : Type) : Type := (list Step * (exn + A))%type.

Definition trace {A} (h : Handler A) : list Step := fst h.
Definition outcome {A} (h : Handler A) : exn + A := snd h.

#[export] Instance Handler_ret : MRet Handler := fun A a => ([], inr a).

#[export] Instance Handler_bind : MBind Handler := fun A B f h =>
  match h with
  | (t, inl e) => (t, inl e)
  | (t, inr a) => let (t', r) := f a in ((t ++ t')%list, r)
  end.

Definition raise {A} (e : exn) : Handler A := ([], inl e).

(** A call of one of the program's functions: its result, and the call
    recorded. *)
Definition call {A} (s : Step) (result : A) : Handler A := ([s], inr result).

(** [l[i]] for [i >= 0], and [l[-1]]. *)
Definition subscript {A} (l : list A) (i : nat) : Handler A :=
  match l !! i with
  | Some x => mret x
  | None => raise IndexError
  end.

Definition subscript_last {A} (l : list A) : Handler A :=
  match last l with
  | Some x => mret x
  | None => raise IndexError
  end.

Definition missing_team_names : json :=
  JObject [("error", JString "Missing team names.")].

(** [predict]: [data] is the parsed body, [data.get(k)] is [data !! k].
    The fields are strings, as section 6 types them, and on these [not v]
    holds of a field that is absent and of the empty string.  Python's
    [not v] is also true of 0, false, an empty list and an empty object;
    bodies with such values are outside this model. *)
Definition predict (df : DataFrame) (data : gmap string string) : Handler json :=
  match data !! "home_team", data !! "away_team" with
  | Some home_team, Some away_team =>
      if String.eqb home_team "" || String.eqb away_team "" then
        mret missing_team_names
      else
        prediction ← call (Scoring home_team away_team)
                          (rule_based_prediction df home_team away_team);
        home_form ← call (FormSummary home_team)
                         (summarize_form (recent_matches df home_team 10) home_team);
        away_form ← call (FormSummary away_team)
                         (summarize_form (recent_matches df away_team 10) away_team);
        let h2h_matches := h2h_matches df home_team away_team 10 in
        h2h_form ← call (H2HSummary home_team away_team)
                        (summarize_h2h h2h_matches home_team away_team);
        home_line ← subscript (splitlines home_form) 1;
        away_line ← subscript (splitlines away_form) 1;
        h2h_line ← subscript_last (splitlines h2h_form);
        let discussion :=
          home_team ++ " comes into this fixture with " ++ home_line ++ ". "
          ++ away_team ++ " shows " ++ away_line ++ ". "
          ++ "The head-to-head record suggests: " ++ h2h_line ++ ". "
          ++ "Considering form and past performance, this match is predicted to end in: "
          ++ lower prediction ++ "." in
        mret (JObject [("prediction", JString prediction);
                       ("stats", JArray [JString home_form; JString away_form;
                                         JString h2h_form]);
                       ("discussion", JString (strip discussion))])
  | _, _ => mret missing_team_names
  end.

(** ** What the specification says, in its own words

    The scores of section 4.3, written over the three snapshots. *)

Definition spec_home_score (home away : Form.t) (h2h : H2H.t) : Z :=
  Form.wins home
  + (if gt (Form.avg_gf home) (Form.avg_ga away) then 1 else 0)
  + (if gt (Form.avg_xg home) (Form.avg_xg away) then 1 else 0)
  + H2H.home_wins h2h.

Definition spec_away_score (home away : Form.t) (h2h : H2H.t) : Z :=
  Form.wins away
  + (if gt (Form.avg_gf away) (Form.avg_ga home) then 1 else 0)
  + (if gt (Form.avg_xg away) (Form.avg_xg home) then 1 else 0)
  + H2H.away_wins h2h.

(** [diff] of section 4.3 for the store [df], over the windows of 5. *)
Definition spec_diff (df : DataFrame) (home away : string) : Z :=
  let hf := get_team_form df home 5 in
  let af := get_team_form df away 5 in
  let hh := get_head_to_head df home away 5 in
  spec_home_score hf af hh - spec_away_score hf af hh.

(** A team is absent from the store when no row has it as [Team]. *)
Definition absent (df : DataFrame) (team : string) : Prop :=
  List.filter (col_eq Team team) (rows df) = [].

(** The three lines of a form block and the two lines of a head-to-head
    block, as laid out in section 6. *)
Definition form_header (team : string) (k : nat) : string :=
  team ++ " - Last " ++ str_int (Z.of_nat k) ++ " Matches:".

Definition form_counts (w d l : Z) : string :=
  "- Wins: " ++ str_int w ++ ", Draws: " ++ str_int d ++ ", Losses: " ++ str_int l.

Definition form_averages (gf ga : number) : string :=
  "- Avg Goals Scored: " ++ format_2f gf ++ ", Avg Goals Conceded: " ++ format_2f ga.

Definition h2h_header (home away : string) (k : nat) : string :=
  "Head-to-Head (" ++ home ++ " vs " ++ away ++ ") - Last "
  ++ str_int (Z.of_nat k) ++ " Matches:".

Definition h2h_counts (home away : string) (hw aw d : Z) : string :=
  "- " ++ home ++ " Wins: " ++ str_int hw ++ ", " ++ away ++ " Wins: "
  ++ str_int aw ++ ", Draws: " ++ str_int d.

Definition no_h2h_data : string := "No recent head-to-head match data available.".

(** Reading a response: the value of a field, the item of an array. *)
Fixpoint assoc (k : string) (fields : list (string * json)) : option json :=
  match fields with
  | [] => None
  | (k', v) :: rest => if String.eqb k k' then Some v else assoc k rest
  end.

Definition field (k : string) (j : json) : option json :=
  match j with
  | JObject fields => assoc k fields
  | _ => None
  end.

Definition item (i : nat) (j : json) : option json :=
  match j with
  | JArray items => items !! i
  | _ => None
  end.

(** The paragraph of section 6, from its fragments: the home team's name
    without the white space it may start with, the second line of each form
    block, the last line of the head-to-head block, and at the end the
    prediction in lower case and a full stop. *)
Definition spec_discussion
    (home away home_line away_line h2h_line prediction : string) : string :=
  lstrip (home ++ " ") ++ "comes into this fixture with " ++ home_line ++ ". "
  ++ away ++ " shows " ++ away_line ++ ". "
  ++ "The head-to-head record suggests: " ++ h2h_line ++ ". "
  ++ "Considering form and past performance, this match is predicted to end in: "
  ++ lower prediction ++ ".".

(** The calls of a request that is answered with a prediction. *)
Definition full_trace (home away : string) : list Step :=
  [Scoring home away; FormSummary home; FormSummary away; H2HSummary home away].

(** The distinct drawn matches of a window.  A match is stored as two rows
    of the same date, one from each side; two rows of one match are counted
    once. *)
Definition same_match (r1 r2 : Row) : bool :=
  String.eqb (date r1) (date r2)
  && ((String.eqb (Team r1) (Team r2) && String.eqb (Opponent r1) (Opponent r2))
      || (String.eqb (Team r1) (Opponent r2) && String.eqb (Opponent r1) (Team r2))).

Fixpoint distinct_matches (l : list Row) : list Row :=
  match l with
  | [] => []
  | r :: l' =>
      if existsb (same_match r) l' then distinct_matches l'
      else r :: distinct_matches l'
  end.

Definition spec_drawn_matches (window : DataFrame) : Z :=
  Z.of_nat (List.length
              (distinct_matches (List.filter (col_eq Result "D") (rows window)))).

(** A field of the body that is missing or empty. *)
Definition missing_or_empty (v : option string) : Prop := v = None \/ v = Some "".

(** Reading dates: [a] is not earlier than [b]. *)
Definition not_earlier (a b : Row) : Prop := String.ltb (date a) (date b) = false.

(** A string with no line boundary in it. *)
Fixpoint single_line (s : string) : bool :=
  match s with
  | EmptyString => true
  | String c s' => negb (is_line_boundary c) && single_line s'
  end.

(** The same row, its expected-goals cell blanked; and the same frame, all
    of these cells blanked. *)
Definition erase_xG (r : Row) : Row :=
  mkRow (date r) (Team r) (Opponent r) (Result r) (GF r) (GA r) nan.

Definition without_xG (d : DataFrame) : DataFrame :=
  mkFrame (has_xG d) (List.map erase_xG (rows d)).

(** ** Stores and requests used as examples *)

(** Seven matches of Arsenal, one of them also stored from the other side. *)
Definition arsenal_store : DataFrame :=
  mkFrame true
    [ mkRow "2023-05-28" "Arsenal" "Wolves" "W" (fin 5) (fin 0) (fin (23 # 10));
      mkRow "2023-05-20" "Arsenal" "Nottingham Forest" "L" (fin 0) (fin 1) (fin (7 # 10));
      mkRow "2023-05-28" "Wolves" "Arsenal" "L" (fin 0) (fin 5) (fin (3 # 10));
      mkRow "2023-05-14" "Arsenal" "Brighton" "L" (fin 0) (fin 3) (fin (11 # 10));
      mkRow "2023-05-07" "Arsenal" "Newcastle United" "W" (fin 2) (fin 0) (fin (19 # 10));
      mkRow "2023-05-02" "Arsenal" "Chelsea" "W" (fin 3) (fin 1) (fin (21 # 10));
      mkRow "2023-04-26" "Arsenal" "Manchester City" "L" (fin 1) (fin 4) (fin (9 # 10));
      mkRow "2023-04-21" "Arsenal" "Southampton" "D" (fin 3) (fin 3) (fin (3 # 1)) ].

(** A store whose file has no [xG] column. *)
Definition no_xG_column : DataFrame :=
  mkFrame false
    [ mkRow "2023-05-02" "Arsenal" "Chelsea" "W" (fin 3) (fin 1) nan;
      mkRow "2023-05-02" "Chelsea" "Arsenal" "L" (fin 1) (fin 3) nan ].

(** One win of Arsenal over Chelsea and one draw between them, each stored
    from both sides. *)
Definition one_win_one_draw : DataFrame :=
  mkFrame true
    [ mkRow "2023-05-02" "Arsenal" "Chelsea" "W" (fin 3) (fin 1) (fin (21 # 10));
      mkRow "2023-05-02" "Chelsea" "Arsenal" "L" (fin 1) (fin 3) (fin (4 # 10));
      mkRow "2022-11-06" "Chelsea" "Arsenal" "D" (fin 1) (fin 1) (fin (9 # 10));
      mkRow "2022-11-06" "Arsenal" "Chelsea" "D" (fin 1) (fin 1) (fin (12 # 10)) ].

Definition empty_home_team : gmap string string :=
  {[ "home_team" := ""; "away_team" := "Chelsea" ]}.

Definition wolves_brighton : gmap string string :=
  {[ "home_team" := "Wolves"; "away_team" := "Brighton" ]}.

Definition arsenal_wolves : gmap string string :=
  {[ "home_team" := "Arsenal"; "away_team" := "Wolves" ]}.

(** * Properties *)

(** ** The model at work *)

Example get_team_form_arsenal :
  get_team_form arsenal_store "Arsenal" 5
  = Form.mk 3 0 2 (fin 2) (fin 1) (fin (81 # 50)).
Proof. reflexivity. Qed.

Example recent_matches_arsenal_dates :
  List.map date (rows (recent_matches arsenal_store "Arsenal" 5))
  = ["2023-05-28"; "2023-05-20"; "2023-05-14"; "2023-05-07"; "2023-05-02"].
Proof. reflexivity. Qed.

Example summarize_form_arsenal :
  summarize_form (recent_matches arsenal_store "Arsenal" 10) "Arsenal"
  = "Arsenal - Last 7 Matches:
- Wins: 3, Draws: 1, Losses: 3
- Avg Goals Scored: 2.00, Avg Goals Conceded: 1.71".
Proof. reflexivity. Qed.

Example summarize_h2h_chelsea_arsenal :
  summarize_h2h (h2h_matches one_win_one_draw "Chelsea" "Arsenal" 10) "Chelsea" "Arsenal"
  = "Head-to-Head (Chelsea vs Arsenal) - Last 4 Matches:
- Chelsea Wins: 0, Arsenal Wins: 1, Draws: 2".
Proof. reflexivity. Qed.

Example format_2f_ties :
  format_2f (fin (1 # 8)) = "0.12" /\ format_2f (fin (3 # 8)) = "0.38"
  /\ format_2f (fin (12 # 7)) = "1.71" /\ format_2f nan = "nan".
Proof. repeat split. Qed.

Example splitlines_crlf_and_final_newline :
  splitlines ("a" ++ String (ascii_of_N 13) newline ++ "b" ++ newline) = ["a"; "b"].
Proof. reflexivity. Qed.

Example strip_and_lower : strip "  Leeds United " = "Leeds United" /\ lower "Draw" = "draw".
Proof. split; reflexivity. Qed.

Example predict_arsenal_wolves :
  predict arsenal_store arsenal_wolves
  = (full_trace "Arsenal" "Wolves",
     inr (JObject
       [("prediction", JString "Arsenal to win");
        ("stats", JArray
           [JString "Arsenal - Last 7 Matches:
- Wins: 3, Draws: 1, Losses: 3
- Avg Goals Scored: 2.00, Avg Goals Conceded: 1.71";
            JString "Wolves - Last 1 Matches:
- Wins: 0, Draws: 0, Losses: 1
- Avg Goals Scored: 0.00, Avg Goals Conceded: 5.00";
            JString "Head-to-Head (Arsenal vs Wolves) - Last 2 Matches:
- Arsenal Wins: 1, Wolves Wins: 0, Draws: 0"]);
        ("discussion", JString "Arsenal comes into this fixture with - Wins: 3, Draws: 1, Losses: 3. Wolves shows - Wins: 0, Draws: 0, Losses: 1. The head-to-head record suggests: - Arsenal Wins: 1, Wolves Wins: 0, Draws: 0. Considering form and past performance, this match is predicted to end in: arsenal to win.")])).
Proof. vm_compute. reflexivity. Qed.

(** ** Strings *)

#[local] Arguments String.append !s1 s2 : simpl nomatch.

Lemma append_assoc (a b c : string) : (a ++ b) ++ c = a ++ (b ++ c).
Proof. induction a as [|x a IH]; simpl; [reflexivity | now rewrite IH]. Qed.

Lemma length_append (a b : string) :
  String.length (a ++ b) = (String.length a + String.length b)%nat.
Proof. induction a as [|x a IH]; simpl; [reflexivity | now rewrite IH]. Qed.

(** A common tail can be cancelled. *)
Lemma append_inv_tail (a b t : string) : a ++ t = b ++ t -> a = b.
Proof.
  revert b. induction a as [|x a IH]; intros [|y b] H; simpl in H.
  - reflexivity.
  - apply (f_equal String.length) in H. simpl in H.
    rewrite length_append in H. lia.
  - apply (f_equal String.length) in H. simpl in H.
    rewrite length_append in H. lia.
  - injection H as -> H. f_equal. now apply IH.
Qed.

Lemma to_win_not_draw (team : string) : team ++ " to win" <> "Draw".
Proof.
  intros H. apply (f_equal String.length) in H.
  rewrite length_append in H. simpl in H. lia.
Qed.

(** ** Frames *)

Lemma insert_desc_perm (r : Row) (l : list Row) :
  Permutation (insert_desc r l) (r :: l).
Proof.
  induction l as [|y l IH]; simpl.
  - reflexivity.
  - destruct (String.ltb (date r) (date y)).
    + rewrite IH. apply perm_swap.
    + reflexivity.
Qed.

(** Sorting rearranges the rows and loses or adds none. *)
Lemma sort_desc_perm (l : list Row) : Permutation (sort_desc l) l.
Proof.
  induction l as [|r l IH]; simpl.
  - reflexivity.
  - rewrite insert_desc_perm. now constructor.
Qed.

Lemma sort_desc_length (l : list Row) :
  List.length (sort_desc l) = List.length l.
Proof. apply Permutation_length, sort_desc_perm. Qed.

Lemma sort_desc_In (r : Row) (l : list Row) : In r (sort_desc l) -> In r l.
Proof. apply Permutation_in, sort_desc_perm. Qed.

Lemma ltb_asym (a b : string) : String.ltb a b = true -> String.ltb b a = false.
Proof.
  unfold String.ltb. rewrite (String.compare_antisym b a).
  destruct (String.compare a b); simpl; congruence.
Qed.

Lemma insert_desc_sorted (r : Row) (l : list Row) :
  Sorted not_earlier l -> Sorted not_earlier (insert_desc r l).
Proof.
  induction l as [|y l IH]; intros Hs; simpl.
  - repeat constructor.
  - destruct (String.ltb (date r) (date y)) eqn:E.
    + inversion Hs as [|? ? Hl Hhd]; subst. constructor; [now apply IH|].
      destruct l as [|z l]; simpl.
      * constructor. now apply ltb_asym.
      * destruct (String.ltb (date r) (date z)).
        -- constructor. now inversion Hhd.
        -- constructor. now apply ltb_asym.
    + constructor; [assumption | now constructor].
Qed.

(** After sorting no row is followed by a more recent one. *)
Lemma sort_desc_sorted (l : list Row) : Sorted not_earlier (sort_desc l).
Proof.
  induction l as [|r l IH]; simpl; [constructor | now apply insert_desc_sorted].
Qed.

Lemma firstn_In {A} (x : A) (n : nat) (l : list A) : In x (firstn n l) -> In x l.
Proof.
  revert l. induction n as [|n IH]; intros [|y l]; simpl; try tauto.
  intros [->|H]; [now left | right; now apply IH].
Qed.

(** The head-to-head mask does not depend on which team is called home. *)
Lemma h2h_mask_sym (a b : string) (r : Row) : h2h_mask a b r = h2h_mask b a r.
Proof. unfold h2h_mask, mask_or. apply orb_comm. Qed.

Lemma h2h_matches_sym (df : DataFrame) (a b : string) (n : nat) :
  h2h_matches df a b n = h2h_matches df b a n.
Proof.
  unfold h2h_matches, select. f_equal. f_equal. f_equal.
  apply filter_ext, h2h_mask_sym.
Qed.

(** A team that is absent has an empty window, whatever its size. *)
Lemma absent_recent (df : DataFrame) (team : string) (n : nat) :
  absent df team -> rows (recent_matches df team n) = [].
Proof.
  unfold absent, recent_matches. simpl. intros ->. simpl. now destruct n.
Qed.

Lemma has_xG_recent (df : DataFrame) (team : string) (n : nat) :
  has_xG (recent_matches df team n) = has_xG df.
Proof. reflexivity. Qed.

(** ** The scoring rule *)

Lemma gt_nan_l (x : number) : gt nan x = false.
Proof. reflexivity. Qed.

Lemma gt_nan_r (x : number) : gt x nan = false.
Proof. now destruct x. Qed.

(** The scorer is the three-way test of [spec_diff]. *)
Lemma rule_based_prediction_unfold (df : DataFrame) (home away : string) :
  rule_based_prediction df home away =
    if spec_diff df home away >=? 2 then home ++ " to win"
    else if spec_diff df home away <=? -2 then away ++ " to win"
    else "Draw".
Proof. reflexivity. Qed.

(** A team against itself: both scores are the same sum. *)
Lemma spec_diff_self (df : DataFrame) (team : string) : spec_diff df team team = 0.
Proof.
  unfold spec_diff, spec_home_score, spec_away_score, get_head_to_head.
  cbv zeta. cbn [H2H.home_wins H2H.away_wins]. lia.
Qed.

(** The snapshot of an absent team: no counts, no goal averages, and an
    expected-goals average that is not a number when the store has an [xG]
    column and 0 when it has none. *)
Lemma get_team_form_absent (df : DataFrame) (team : string) (n : nat) :
  absent df team ->
  get_team_form df team n =
    Form.mk 0 0 0 nan nan (if has_xG df then nan else fin 0).
Proof.
  intros H. unfold get_team_form, mask_sum, mean. cbv zeta.
  rewrite has_xG_recent, (absent_recent df team n H). simpl.
  now destruct (has_xG df).
Qed.

Lemma avg_xg_no_column (df : DataFrame) (team : string) (n : nat) :
  has_xG df = false -> Form.avg_xg (get_team_form df team n) = fin 0.
Proof. intros H. unfold get_team_form. cbv zeta. simpl. now rewrite H. Qed.

(** With one of the two teams absent, none of the four comparisons of the
    scorer holds. *)
Lemma comparisons_absent (df : DataFrame) (t u : string) (n : nat) :
  absent df t \/ absent df u ->
  gt (Form.avg_gf (get_team_form df t n)) (Form.avg_ga (get_team_form df u n)) = false
  /\ gt (Form.avg_xg (get_team_form df t n)) (Form.avg_xg (get_team_form df u n)) = false.
Proof.
  intros [H|H]; rewrite (get_team_form_absent _ _ n H); cbn [Form.avg_gf Form.avg_ga Form.avg_xg].
  - split; [reflexivity|]. destruct (has_xG df) eqn:E; [reflexivity|].
    rewrite (avg_xg_no_column df u n E). reflexivity.
  - split; [apply gt_nan_r|]. destruct (has_xG df) eqn:E; [apply gt_nan_r|].
    rewrite (avg_xg_no_column df t n E). reflexivity.
Qed.

Lemma rule_based_prediction_cases (df : DataFrame) (home away : string) :
  rule_based_prediction df home away = home ++ " to win"
  \/ rule_based_prediction df home away = away ++ " to win"
  \/ rule_based_prediction df home away = "Draw".
Proof.
  rewrite rule_based_prediction_unfold.
  destruct (spec_diff df home away >=? 2); [now left|].
  destruct (spec_diff df home away <=? -2); [right; now left | right; now right].
Qed.

(** C1. For every store and every pair of names, the scorer's result is
    decided by [diff = home_score - away_score], the scores being those of
    section 4.3 over the windows of 5: it is the home-win verdict exactly
    when [diff >= 2], the away-win verdict exactly when [diff <= -2], and
    ["Draw"] exactly in between. *)
Theorem rule_based_prediction_spec (df : DataFrame) (home away : string) :
  let diff :=
    spec_home_score (get_team_form df home 5) (get_team_form df away 5)
                    (get_head_to_head df home away 5)
    - spec_away_score (get_team_form df home 5) (get_team_form df away 5)
                      (get_head_to_head df home away 5) in
  (rule_based_prediction df home away = home ++ " to win" <-> diff >= 2)
  /\ (rule_based_prediction df home away = away ++ " to win" <-> diff <= -2)
  /\ (rule_based_prediction df home away = "Draw" <-> -2 < diff < 2).
Proof.
  intros diff. change diff with (spec_diff df home away). clear diff.
  rewrite rule_based_prediction_unfold.
  pose proof (spec_diff_self df home) as Hself.
  destruct (Z.geb_spec (spec_diff df home away) 2) as [Hge|Hlt].
  - split; [split; [lia | reflexivity] | split; split; intros H; try lia].
    + apply append_inv_tail in H. subst away. lia.
    + now apply to_win_not_draw in H.
  - destruct (Z.leb_spec (spec_diff df home away) (-2)) as [Hle|Hgt].
    + split; [split; intros H | split; [split; [lia | reflexivity] | split; intros H]];
        try lia.
      * apply append_inv_tail in H. subst away. lia.
      * now apply to_win_not_draw in H.
    + split; [split; intros H | split; [split; intros H | split; [lia | reflexivity]]];
        try lia; symmetry in H; now apply to_win_not_draw in H.
Qed.

(** C10. A team scored against itself is a draw, on every store. *)
Theorem rule_based_prediction_self (df : DataFrame) (team : string) :
  rule_based_prediction df team team = "Draw".
Proof.
  rewrite rule_based_prediction_unfold, spec_diff_self. reflexivity.
Qed.

(** C3. On every store and for every window size, exchanging the two names
    exchanges [home_wins] and [away_wins] and leaves [draws] as it is. *)
Theorem get_head_to_head_swap (df : DataFrame) (a b : string) (n : nat) :
  H2H.home_wins (get_head_to_head df a b n) = H2H.away_wins (get_head_to_head df b a n)
  /\ H2H.away_wins (get_head_to_head df a b n) = H2H.home_wins (get_head_to_head df b a n)
  /\ H2H.draws (get_head_to_head df a b n) = H2H.draws (get_head_to_head df b a n).
Proof.
  unfold get_head_to_head. cbv zeta. cbn [H2H.home_wins H2H.away_wins H2H.draws].
  rewrite (h2h_matches_sym df b a n). repeat split.
Qed.

(** C4. When one of the two teams is absent from the store: a comparison
    with a not-a-number side is false on either side; none of the four
    comparisons of the scorer holds; and the scorer, a total function,
    answers with one of its three verdicts. *)
Theorem rule_based_prediction_absent (df : DataFrame) (home away : string) :
  absent df home \/ absent df away ->
  (forall x, gt nan x = false /\ gt x nan = false)
  /\ gt (Form.avg_gf (get_team_form df home 5)) (Form.avg_ga (get_team_form df away 5)) = false
  /\ gt (Form.avg_xg (get_team_form df home 5)) (Form.avg_xg (get_team_form df away 5)) = false
  /\ gt (Form.avg_gf (get_team_form df away 5)) (Form.avg_ga (get_team_form df home 5)) = false
  /\ gt (Form.avg_xg (get_team_form df away 5)) (Form.avg_xg (get_team_form df home 5)) = false
  /\ (rule_based_prediction df home away = home ++ " to win"
      \/ rule_based_prediction df home away = away ++ " to win"
      \/ rule_based_prediction df home away = "Draw").
Proof.
  intros H.
  destruct (comparisons_absent df home away 5 H) as [H1 H2].
  destruct (comparisons_absent df away home 5 (proj1 (or_comm _ _) H)) as [H3 H4].
  split; [intros x; split; [apply gt_nan_l | apply gt_nan_r]|].
  repeat (split; [assumption|]).
  apply rule_based_prediction_cases.
Qed.

Lemma rule_based_prediction_absent_witness :
  absent arsenal_store "Leeds United"
  /\ gt (Form.avg_gf (get_team_form arsenal_store "Arsenal" 5))
        (Form.avg_ga (get_team_form arsenal_store "Leeds United" 5)) = false
  /\ (rule_based_prediction arsenal_store "Arsenal" "Leeds United" = "Arsenal" ++ " to win"
      \/ rule_based_prediction arsenal_store "Arsenal" "Leeds United"
         = "Leeds United" ++ " to win"
      \/ rule_based_prediction arsenal_store "Arsenal" "Leeds United" = "Draw").
Proof.
  split; [reflexivity|].
  destruct (rule_based_prediction_absent arsenal_store "Arsenal" "Leeds United")
    as (_ & H1 & _ & _ & _ & H5); [right; reflexivity|].
  split; [exact H1 | exact H5].
Defined.

(** ** The form window *)

Lemma col_eq_true (col : Row -> string) (v : string) (r : Row) :
  col_eq col v r = true <-> col r = v.
Proof. apply String.eqb_eq. Qed.

(** Rows whose result is one of the three letters fall in exactly one of the
    three counts. *)
Lemma result_counts_length (l : list Row) :
  (forall r, In r l -> Result r = "W" \/ Result r = "D" \/ Result r = "L") ->
  (List.length (List.filter (col_eq Result "W") l)
   + List.length (List.filter (col_eq Result "D") l)
   + List.length (List.filter (col_eq Result "L") l))%nat = List.length l.
Proof.
  induction l as [|r l IH]; intros H; simpl; [reflexivity|].
  assert (IH' := IH (fun x Hx => H x (or_intror Hx))).
  unfold col_eq in *.
  destruct (H r (or_introl eq_refl)) as [E | [E | E]]; rewrite E; simpl; lia.
Qed.

Lemma recent_matches_length (df : DataFrame) (team : string) (n : nat) :
  len (recent_matches df team n)
  = Nat.min n (List.length (List.filter (col_eq Team team) (rows df))).
Proof.
  unfold len, recent_matches. simpl.
  now rewrite length_firstn, sort_desc_length.
Qed.

Lemma recent_matches_In (df : DataFrame) (team : string) (n : nat) (r : Row) :
  In r (rows (recent_matches df team n)) -> In r (rows df) /\ Team r = team.
Proof.
  unfold recent_matches. simpl. intros H.
  apply firstn_In, sort_desc_In, filter_In in H.
  now rewrite col_eq_true in H.
Qed.

(** The three counts of a window add up to its length. *)
Lemma get_team_form_counts (df : DataFrame) (team : string) (n : nat) :
  (forall r, In r (rows df) -> Team r = team ->
             Result r = "W" \/ Result r = "D" \/ Result r = "L") ->
  Form.wins (get_team_form df team n) + Form.draws (get_team_form df team n)
  + Form.losses (get_team_form df team n)
  = Z.of_nat (Nat.min n (List.length (List.filter (col_eq Team team) (rows df)))).
Proof.
  intros H. rewrite <- recent_matches_length.
  unfold get_team_form, mask_sum, len. cbv zeta.
  cbn [Form.wins Form.draws Form.losses].
  rewrite <- (result_counts_length (rows (recent_matches df team n))).
  - lia.
  - intros r Hr. apply recent_matches_In in Hr as [Hr Ht]. now apply H.
Qed.

(** C5. A team with at least five rows in the store, each with result W, D
    or L, has wins, draws and losses over its window of 5 that add up to 5. *)
Theorem get_team_form_sum_5 (df : DataFrame) (team : string) :
  (5 <= List.length (List.filter (col_eq Team team) (rows df)))%nat ->
  (forall r, In r (rows df) -> Team r = team ->
             Result r = "W" \/ Result r = "D" \/ Result r = "L") ->
  Form.wins (get_team_form df team 5) + Form.draws (get_team_form df team 5)
  + Form.losses (get_team_form df team 5) = 5.
Proof.
  intros Hlen Hres. rewrite (get_team_form_counts df team 5 Hres).
  rewrite Nat.min_l by exact Hlen. reflexivity.
Qed.

Lemma get_team_form_sum_5_witness :
  (5 <= List.length (List.filter (col_eq Team "Arsenal") (rows arsenal_store)))%nat
  /\ Form.wins (get_team_form arsenal_store "Arsenal" 5)
     + Form.draws (get_team_form arsenal_store "Arsenal" 5)
     + Form.losses (get_team_form arsenal_store "Arsenal" 5) = 5.
Proof.
  split; [vm_compute; lia|].
  apply (get_team_form_sum_5 arsenal_store "Arsenal"); [vm_compute; lia|].
  intros r Hr _. simpl in Hr.
  repeat (destruct Hr as [<- | Hr]; [simpl; tauto|]). destruct Hr.
Defined.

(** C6. On a store with an [xG] column, the store of sections 2 and 6, a
    team with no row has, whatever the window size, wins, draws and losses
    equal to 0 and all three averages not a number: goals scored, goals
    conceded and expected goals. *)
Theorem get_team_form_absent_nan (df : DataFrame) (team : string) (n : nat) :
  has_xG df = true ->
  absent df team ->
  Form.wins (get_team_form df team n) = 0
  /\ Form.draws (get_team_form df team n) = 0
  /\ Form.losses (get_team_form df team n) = 0
  /\ Form.avg_gf (get_team_form df team n) = nan
  /\ Form.avg_ga (get_team_form df team n) = nan
  /\ Form.avg_xg (get_team_form df team n) = nan.
Proof.
  intros Hx H. rewrite (get_team_form_absent df team n H), Hx.
  cbn [Form.wins Form.draws Form.losses Form.avg_gf Form.avg_ga Form.avg_xg].
  repeat split.
Qed.

Lemma get_team_form_absent_nan_witness :
  has_xG arsenal_store = true
  /\ absent arsenal_store "Leeds United"
  /\ Form.wins (get_team_form arsenal_store "Leeds United" 5) = 0
  /\ Form.avg_gf (get_team_form arsenal_store "Leeds United" 5) = nan
  /\ Form.avg_xg (get_team_form arsenal_store "Leeds United" 5) = nan.
Proof.
  split; [reflexivity|]. split; [reflexivity|].
  destruct (get_team_form_absent_nan arsenal_store "Leeds United" 5)
    as (Hw & _ & _ & Hgf & _ & Hxg); [reflexivity | reflexivity |].
  repeat split; assumption.
Defined.

(** Outside that store: when the file has no [xG] column the guard of
    [get_team_form] makes the expected-goals average 0. *)
Example get_team_form_without_xG_column :
  Form.avg_xg (get_team_form no_xG_column "Leeds United" 5) = fin 0
  /\ Form.avg_gf (get_team_form no_xG_column "Leeds United" 5) = nan.
Proof. split; reflexivity. Qed.

(** ** Lines *)

Lemma splitlines_plain (c : ascii) (s : string) :
  is_line_boundary c = false ->
  splitlines (String c s) =
    match splitlines s with
    | [] => [String c ""]
    | l :: ls => String c l :: ls
    end.
Proof. intros H. simpl. now rewrite H. Qed.

Lemma splitlines_crlf (c c' : ascii) (s : string) :
  is_line_boundary c = true -> ((code c =? 13) && (code c' =? 10))%N = true ->
  splitlines (String c (String c' s)) = "" :: splitlines s.
Proof. intros H1 H2. cbn [splitlines]. now rewrite H1, H2. Qed.

Lemma splitlines_boundary (c : ascii) (s : string) :
  is_line_boundary c = true ->
  match s with
  | String c' _ => ((code c =? 13) && (code c' =? 10))%N = false
  | EmptyString => True
  end ->
  splitlines (String c s) = "" :: splitlines s.
Proof.
  intros H1 H2. destruct s as [|c' s]; cbn [splitlines]; rewrite H1.
  - reflexivity.
  - now rewrite H2.
Qed.

(** A string that is not empty has a first line. *)
Lemma splitlines_not_nil (s : string) : s <> "" -> splitlines s <> [].
Proof.
  destruct s as [|c s]; [congruence|]. intros _. cbn [splitlines].
  destruct (is_line_boundary c).
  - destruct s as [|c' s]; [discriminate|].
    destruct ((code c =? 13) && (code c' =? 10))%N; discriminate.
  - destruct (splitlines s); discriminate.
Qed.

Lemma append_not_nil_r (a b : string) : b <> "" -> a ++ b <> "".
Proof. destruct a; simpl; [tauto | discriminate]. Qed.

(** What follows a line feed starts a line of its own. *)
Lemma splitlines_append_newline (a b : string) :
  splitlines (a ++ newline ++ b) = (splitlines (a ++ newline) ++ splitlines b)%list.
Proof.
  remember (String.length a) as n eqn:Hn.
  revert a b Hn. induction n as [n IH] using lt_wf_ind. intros a b Hn.
  destruct a as [|c a].
  - simpl. destruct b; reflexivity.
  - change (String c a ++ newline ++ b) with (String c (a ++ newline ++ b)).
    change (String c a ++ newline) with (String c (a ++ newline)).
    assert (IHa : splitlines (a ++ newline ++ b)
                  = (splitlines (a ++ newline) ++ splitlines b)%list).
    { apply (IH (String.length a)); [simpl in Hn; lia | reflexivity]. }
    destruct (is_line_boundary c) eqn:Hc.
    + destruct a as [|c' a].
      * change ("" ++ newline ++ b) with (String (ascii_of_N 10) b).
        change ("" ++ newline) with (String (ascii_of_N 10) "").
        destruct ((code c =? 13))%N eqn:Hcr.
        -- rewrite !(splitlines_crlf c) by (try assumption; now rewrite Hcr).
           reflexivity.
        -- rewrite !(splitlines_boundary c) by (try assumption; now rewrite Hcr).
           simpl. destruct b; reflexivity.
      * change (String c' a ++ newline ++ b) with (String c' (a ++ newline ++ b)) in *.
        change (String c' a ++ newline) with (String c' (a ++ newline)) in *.
        destruct ((code c =? 13) && (code c' =? 10))%N eqn:Hcrlf.
        -- rewrite !(splitlines_crlf c c') by assumption.
           rewrite (IH (String.length a)); [reflexivity | simpl in Hn; lia | reflexivity].
        -- rewrite !(splitlines_boundary c) by assumption.
           now rewrite IHa.
    + rewrite !splitlines_plain by assumption.
      rewrite IHa.
      destruct (splitlines (a ++ newline)) eqn:E; [|reflexivity].
      exfalso. revert E. apply splitlines_not_nil, append_not_nil_r. discriminate.
Qed.

(** Two line feeds, each followed by text: there is a second line. *)
Lemma second_line_exists (a b c : string) :
  b ++ newline ++ c <> "" ->
  is_Some (splitlines (a ++ newline ++ b ++ newline ++ c) !! 1%nat).
Proof.
  intros Hb. rewrite splitlines_append_newline.
  pose proof (splitlines_not_nil (a ++ newline)
                (append_not_nil_r a newline ltac:(discriminate))) as H1.
  pose proof (splitlines_not_nil _ Hb) as H2.
  destruct (splitlines (a ++ newline)) as [|x [|y l]]; [congruence | |].
  - destruct (splitlines (b ++ newline ++ c)) as [|z l]; [congruence|].
    now exists z.
  - now exists y.
Qed.

Lemma last_line_exists (s : string) : s <> "" -> is_Some (last (splitlines s)).
Proof. intros H. apply last_is_Some, splitlines_not_nil, H. Qed.

(** ** Stripping *)

Lemma lstrip_append_plain (a : string) (c : ascii) (r : string) :
  isspace c = false -> lstrip (a ++ String c r) = lstrip a ++ String c r.
Proof.
  intros Hc. induction a as [|x a IH]; simpl.
  - now rewrite Hc.
  - destruct (isspace x); [exact IH | reflexivity].
Qed.

Lemma rstrip_append_plain (a : string) (c : ascii) :
  isspace c = false -> rstrip (a ++ String c "") = a ++ String c "".
Proof.
  intros Hc. induction a as [|x a IH]; simpl.
  - now rewrite Hc.
  - rewrite IH. destruct a; reflexivity.
Qed.

(** The paragraph of the handler ends in a full stop and has the letters
    of its first template right after the home team's name: stripping can
    only remove white space that the name starts with. *)
Lemma strip_paragraph (home body : string) :
  strip (home ++ " comes into this fixture with " ++ body ++ ".")
  = lstrip (home ++ " ") ++ "comes into this fixture with " ++ body ++ ".".
Proof.
  unfold strip.
  change (home ++ " comes into this fixture with " ++ body ++ ".")
    with (home ++ " " ++ String "c" ("omes into this fixture with " ++ body ++ ".")).
  rewrite <- (append_assoc home " "), lstrip_append_plain by reflexivity.
  change (String "c" ("omes into this fixture with " ++ body ++ "."))
    with ("comes into this fixture with " ++ body ++ ".").
  rewrite <- !append_assoc. rewrite rstrip_append_plain by reflexivity.
  reflexivity.
Qed.

(** ** The text blocks *)

Lemma summarize_form_lines (matches : DataFrame) (team : string) :
  summarize_form matches team
  = form_header team (len matches) ++ newline
    ++ form_counts (mask_sum (col_eq Result "W") matches)
                   (mask_sum (col_eq Result "D") matches)
                   (mask_sum (col_eq Result "L") matches) ++ newline
    ++ form_averages (mean GF matches) (mean GA matches).
Proof.
  unfold summarize_form, form_header, form_counts, form_averages. cbv zeta.
  rewrite !append_assoc. reflexivity.
Qed.

Lemma summarize_h2h_lines (matches : DataFrame) (home away : string) :
  summarize_h2h matches home away
  = if empty matches then no_h2h_data
    else h2h_header home away (len matches) ++ newline
         ++ h2h_counts home away
              (mask_sum (mask_and (col_eq Team home) (col_eq Result "W")) matches)
              (mask_sum (mask_and (col_eq Team away) (col_eq Result "W")) matches)
              (mask_sum (col_eq Result "D") matches).
Proof.
  unfold summarize_h2h, h2h_header, h2h_counts. cbv zeta.
  destruct (empty matches); [reflexivity|].
  rewrite !append_assoc. reflexivity.
Qed.

(** A form block always has a second line. *)
Lemma summarize_form_second_line (matches : DataFrame) (team : string) :
  is_Some (splitlines (summarize_form matches team) !! 1%nat).
Proof.
  rewrite summarize_form_lines. apply second_line_exists.
  unfold form_counts. simpl. discriminate.
Qed.

(** A head-to-head block always has a last line. *)
Lemma summarize_h2h_last_line (matches : DataFrame) (home away : string) :
  is_Some (last (splitlines (summarize_h2h matches home away))).
Proof.
  apply last_line_exists. rewrite summarize_h2h_lines.
  destruct (empty matches); [discriminate|].
  unfold h2h_header. simpl. discriminate.
Qed.

(** Without head-to-head rows the block is the fixed sentence. *)
Lemma summarize_h2h_no_rows (df : DataFrame) (home away : string) (n : nat) :
  List.filter (h2h_mask home away) (rows df) = [] ->
  summarize_h2h (h2h_matches df home away n) home away = no_h2h_data.
Proof.
  intros H. unfold summarize_h2h, empty, h2h_matches. simpl. rewrite H. simpl.
  now destruct n.
Qed.

(** *** Names without line boundaries *)

Lemma single_line_append (a b : string) :
  single_line (a ++ b) = single_line a && single_line b.
Proof.
  induction a as [|c a IH]; simpl; [reflexivity|].
  now rewrite IH, andb_assoc.
Qed.

Lemma splitlines_single_line_newline (a b : string) :
  single_line a = true -> splitlines (a ++ newline ++ b) = a :: splitlines b.
Proof.
  induction a as [|c a IH]; intros H.
  - simpl. destruct b; reflexivity.
  - simpl in H. apply andb_prop in H as [Hc Ha]. apply negb_true_iff in Hc.
    change (String c a ++ newline ++ b) with (String c (a ++ newline ++ b)).
    rewrite splitlines_plain by assumption. now rewrite IH.
Qed.

Lemma splitlines_single_line (a : string) :
  single_line a = true -> a <> "" -> splitlines a = [a].
Proof.
  induction a as [|c a IH]; intros H Hne; [congruence|].
  simpl in H. apply andb_prop in H as [Hc Ha]. apply negb_true_iff in Hc.
  rewrite splitlines_plain by assumption.
  destruct a as [|c' a]; [reflexivity|].
  rewrite IH; [reflexivity | assumption | discriminate].
Qed.

Lemma single_line_uint (d : Decimal.uint) :
  single_line (NilEmpty.string_of_uint d) = true.
Proof. induction d; simpl; auto. Qed.

Lemma single_line_nilzero (d : Decimal.uint) :
  single_line (NilZero.string_of_uint d) = true.
Proof. destruct d; try reflexivity; apply single_line_uint. Qed.

(** A number in decimal is a sign and digits. *)
Lemma single_line_str_int (z : Z) : single_line (str_int z) = true.
Proof.
  unfold str_int, NilZero.string_of_int.
  destruct (Z.to_int z) as [d|d]; [|simpl]; apply single_line_nilzero.
Qed.

Lemma single_line_format_2f (x : number) : single_line (format_2f x) = true.
Proof.
  destruct x as [|q]; [reflexivity|]. unfold format_2f. cbv zeta.
  rewrite !single_line_append, !single_line_str_int.
  destruct (Qle_bool 0 q);
    destruct (round_half_even (Qabs q * 100) mod 100 <? 10); reflexivity.
Qed.

Ltac single_line_parts :=
  rewrite ?single_line_append, ?single_line_str_int, ?single_line_format_2f.

Lemma form_header_single_line (team : string) (k : nat) :
  single_line team = true -> single_line (form_header team k) = true.
Proof. intros H. unfold form_header. single_line_parts. now rewrite H. Qed.

Lemma form_counts_single_line (w d l : Z) : single_line (form_counts w d l) = true.
Proof. unfold form_counts. now single_line_parts. Qed.

Lemma form_averages_single_line (gf ga : number) :
  single_line (form_averages gf ga) = true.
Proof. unfold form_averages. now single_line_parts. Qed.

Lemma h2h_header_single_line (home away : string) (k : nat) :
  single_line home = true -> single_line away = true ->
  single_line (h2h_header home away k) = true.
Proof.
  intros Hh Ha. unfold h2h_header. single_line_parts. now rewrite Hh, Ha.
Qed.

Lemma h2h_counts_single_line (home away : string) (hw aw d : Z) :
  single_line home = true -> single_line away = true ->
  single_line (h2h_counts home away hw aw d) = true.
Proof.
  intros Hh Ha. unfold h2h_counts. single_line_parts. now rewrite Hh, Ha.
Qed.

(** The lines of a form block are its header, its counts and its averages,
    when the team's name has no line boundary in it. *)
Lemma summarize_form_splitlines (matches : DataFrame) (team : string) :
  single_line team = true ->
  splitlines (summarize_form matches team)
  = [ form_header team (len matches);
      form_counts (mask_sum (col_eq Result "W") matches)
                  (mask_sum (col_eq Result "D") matches)
                  (mask_sum (col_eq Result "L") matches);
      form_averages (mean GF matches) (mean GA matches) ].
Proof.
  intros H. rewrite summarize_form_lines.
  rewrite splitlines_single_line_newline by now apply form_header_single_line.
  rewrite splitlines_single_line_newline by apply form_counts_single_line.
  rewrite splitlines_single_line; [reflexivity | apply form_averages_single_line |].
  unfold form_averages. simpl. discriminate.
Qed.

(** Likewise the lines of a head-to-head block are its header and its
    counts, or the one sentence said of an empty selection. *)
Lemma summarize_h2h_splitlines (matches : DataFrame) (home away : string) :
  single_line home = true -> single_line away = true ->
  splitlines (summarize_h2h matches home away)
  = if empty matches then [no_h2h_data]
    else [ h2h_header home away (len matches);
           h2h_counts home away
             (mask_sum (mask_and (col_eq Team home) (col_eq Result "W")) matches)
             (mask_sum (mask_and (col_eq Team away) (col_eq Result "W")) matches)
             (mask_sum (col_eq Result "D") matches) ].
Proof.
  intros Hh Ha. rewrite summarize_h2h_lines.
  destruct (empty matches); [reflexivity|].
  rewrite splitlines_single_line_newline by now apply h2h_header_single_line.
  rewrite splitlines_single_line; [reflexivity | now apply h2h_counts_single_line |].
  unfold h2h_counts. simpl. discriminate.
Qed.

(** So the fragments that the discussion quotes are the counts of the two
    form windows and the counts of the head-to-head window. *)
Lemma quoted_fragments (df : DataFrame) (home away : string) :
  single_line home = true -> single_line away = true ->
  let hm := recent_matches df home 10 in
  let am := recent_matches df away 10 in
  let xm := h2h_matches df home away 10 in
  splitlines (summarize_form hm home) !! 1%nat
  = Some (form_counts (mask_sum (col_eq Result "W") hm)
                      (mask_sum (col_eq Result "D") hm)
                      (mask_sum (col_eq Result "L") hm))
  /\ splitlines (summarize_form am away) !! 1%nat
     = Some (form_counts (mask_sum (col_eq Result "W") am)
                         (mask_sum (col_eq Result "D") am)
                         (mask_sum (col_eq Result "L") am))
  /\ last (splitlines (summarize_h2h xm home away))
     = Some (if empty xm then no_h2h_data
             else h2h_counts home away
                    (mask_sum (mask_and (col_eq Team home) (col_eq Result "W")) xm)
                    (mask_sum (mask_and (col_eq Team away) (col_eq Result "W")) xm)
                    (mask_sum (col_eq Result "D") xm)).
Proof.
  intros Hh Ha hm am xm.
  rewrite !summarize_form_splitlines, summarize_h2h_splitlines by assumption.
  repeat split. now destruct (empty xm).
Qed.

(** ** The handler *)

(** C7. When [home_team] or [away_team] is missing from the body or is the
    empty string, the handler answers with exactly
    [{"error": "Missing team names."}] and has called neither the scorer nor
    the formatter, whatever the store. *)
Theorem predict_missing_team_names (df : DataFrame) (data : gmap string string) :
  missing_or_empty (data !! "home_team") \/ missing_or_empty (data !! "away_team") ->
  outcome (predict df data) = inr (JObject [("error", JString "Missing team names.")])
  /\ trace (predict df data) = [].
Proof.
  unfold predict, missing_or_empty.
  intros [[H | H] | [H | H]]; rewrite H.
  - split; reflexivity.
  - destruct (data !! "away_team"); split; reflexivity.
  - destruct (data !! "home_team"); split; reflexivity.
  - destruct (data !! "home_team") as [h|]; [|split; reflexivity].
    rewrite orb_true_r. split; reflexivity.
Qed.

Lemma predict_missing_team_names_witness :
  empty_home_team !! "home_team" = Some ""
  /\ outcome (predict arsenal_store empty_home_team)
     = inr (JObject [("error", JString "Missing team names.")])
  /\ trace (predict arsenal_store empty_home_team) = [].
Proof.
  split; [vm_compute; reflexivity|].
  apply (predict_missing_team_names arsenal_store empty_home_team).
  left. right. vm_compute. reflexivity.
Defined.

(** *** Requests with two names

    From here on the body carries two names and neither is empty. *)

Section Answered.

Variables (df : DataFrame) (data : gmap string string) (home away : string).
Hypothesis Hhome : data !! "home_team" = Some home.
Hypothesis Haway : data !! "away_team" = Some away.
Hypothesis Hhome_ne : home <> "".
Hypothesis Haway_ne : away <> "".

(** A request with two non-empty names is answered with a prediction, after
    one call of the scorer and three of the formatter; the two subscripts
    and the last-line subscript of the discussion all succeed. *)
Lemma predict_success :
  exists home_line away_line h2h_line,
    splitlines (summarize_form (recent_matches df home 10) home) !! 1%nat = Some home_line
    /\ splitlines (summarize_form (recent_matches df away 10) away) !! 1%nat = Some away_line
    /\ last (splitlines (summarize_h2h (h2h_matches df home away 10) home away))
       = Some h2h_line
    /\ predict df data =
       (full_trace home away,
        inr (JObject
          [("prediction", JString (rule_based_prediction df home away));
           ("stats", JArray
              [JString (summarize_form (recent_matches df home 10) home);
               JString (summarize_form (recent_matches df away 10) away);
               JString (summarize_h2h (h2h_matches df home away 10) home away)]);
           ("discussion", JString
              (spec_discussion home away home_line away_line h2h_line
                 (rule_based_prediction df home away)))])).
Proof.
  destruct (summarize_form_second_line (recent_matches df home 10) home) as [hl Hhl].
  destruct (summarize_form_second_line (recent_matches df away 10) away) as [al Hal].
  destruct (summarize_h2h_last_line (h2h_matches df home away 10) home away) as [xl Hxl].
  exists hl, al, xl. repeat (split; [assumption|]).
  unfold predict. rewrite Hhome, Haway.
  rewrite (proj2 (String.eqb_neq _ _) Hhome_ne), (proj2 (String.eqb_neq _ _) Haway_ne).
  cbv [orb mbind Handler_bind call subscript subscript_last].
  rewrite Hhl, Hal, Hxl.
  cbv [mret Handler_ret]. unfold full_trace, spec_discussion. simpl app.
  do 8 f_equal.
  pose (body := hl ++ ". " ++ away ++ " shows " ++ al ++ ". "
    ++ "The head-to-head record suggests: " ++ xl ++ ". "
    ++ "Considering form and past performance, this match is predicted to end in: "
    ++ lower (rule_based_prediction df home away)).
  assert (E : hl ++ ". " ++ away ++ " shows " ++ al ++ ". "
    ++ "The head-to-head record suggests: " ++ xl ++ ". "
    ++ "Considering form and past performance, this match is predicted to end in: "
    ++ lower (rule_based_prediction df home away) ++ "." = body ++ ".").
  { unfold body. now rewrite !append_assoc. }
  rewrite E. apply strip_paragraph.
Qed.

(** C8. For two non-empty names with no head-to-head row in the store, the
    handler answers with a prediction (no ["error"] field) whose [stats]
    array has, at index 2, exactly the sentence
    ["No recent head-to-head match data available."]. *)
Theorem predict_no_head_to_head :
  List.filter (h2h_mask home away) (rows df) = [] ->
  exists response,
    outcome (predict df data) = inr response
    /\ field "error" response = None
    /\ (field "stats" response ≫= item 2)
       = Some (JString "No recent head-to-head match data available.").
Proof.
  intros Hnone.
  destruct predict_success as (hl & al & xl & _ & _ & _ & Hp).
  rewrite Hp. eexists. split; [reflexivity|]. split; [reflexivity|].
  simpl. now rewrite (summarize_h2h_no_rows df home away 10 Hnone).
Qed.

(** C9. For two non-empty names the handler answers with a prediction, the
    two form blocks and the head-to-head block, and a discussion made, in
    this order, of the second line of the home form block, the second line
    of the away form block and the last line of the head-to-head block, set
    in the fixed sentences of the paragraph, whose last words are the
    prediction in lower case, closed by a full stop. *)
Theorem predict_discussion :
  exists prediction home_form away_form h2h_form home_line away_line h2h_line,
    outcome (predict df data)
    = inr (JObject
        [("prediction", JString prediction);
         ("stats", JArray [JString home_form; JString away_form; JString h2h_form]);
         ("discussion", JString
            (lstrip (home ++ " ") ++ "comes into this fixture with "
             ++ home_line ++ ". " ++ away ++ " shows " ++ away_line ++ ". "
             ++ "The head-to-head record suggests: " ++ h2h_line ++ ". "
             ++ "Considering form and past performance, this match is predicted to end in: "
             ++ lower prediction ++ "."))])
    /\ splitlines home_form !! 1%nat = Some home_line
    /\ splitlines away_form !! 1%nat = Some away_line
    /\ last (splitlines h2h_form) = Some h2h_line.
Proof.
  destruct predict_success as (hl & al & xl & Hhl & Hal & Hxl & Hp).
  exists (rule_based_prediction df home away),
         (summarize_form (recent_matches df home 10) home),
         (summarize_form (recent_matches df away 10) away),
         (summarize_h2h (h2h_matches df home away 10) home away),
         hl, al, xl.
  rewrite Hp. repeat split; assumption.
Qed.

End Answered.

Lemma predict_no_head_to_head_witness :
  List.filter (h2h_mask "Wolves" "Brighton") (rows arsenal_store) = []
  /\ exists response,
       outcome (predict arsenal_store wolves_brighton) = inr response
       /\ field "error" response = None
       /\ (field "stats" response ≫= item 2)
          = Some (JString "No recent head-to-head match data available.").
Proof.
  split; [vm_compute; reflexivity|].
  apply (predict_no_head_to_head arsenal_store wolves_brighton "Wolves" "Brighton");
    try (vm_compute; reflexivity); discriminate.
Defined.

Lemma predict_discussion_witness :
  arsenal_wolves !! "home_team" = Some "Arsenal"
  /\ exists prediction home_form away_form h2h_form home_line away_line h2h_line,
    outcome (predict arsenal_store arsenal_wolves)
    = inr (JObject
        [("prediction", JString prediction);
         ("stats", JArray [JString home_form; JString away_form; JString h2h_form]);
         ("discussion", JString
            (lstrip ("Arsenal" ++ " ") ++ "comes into this fixture with "
             ++ home_line ++ ". " ++ "Wolves" ++ " shows " ++ away_line ++ ". "
             ++ "The head-to-head record suggests: " ++ h2h_line ++ ". "
             ++ "Considering form and past performance, this match is predicted to end in: "
             ++ lower prediction ++ "."))])
    /\ splitlines home_form !! 1%nat = Some home_line
    /\ splitlines away_form !! 1%nat = Some away_line
    /\ last (splitlines h2h_form) = Some h2h_line.
Proof.
  split; [vm_compute; reflexivity|].
  apply (predict_discussion arsenal_store arsenal_wolves "Arsenal" "Wolves");
    try (vm_compute; reflexivity); discriminate.
Defined.

(** ** Draws in the head-to-head snapshot *)

(** A count over rows that each lie on exactly one of two sides is the sum
    of the counts of the two sides. *)
Lemma filter_two_sides (m p q : mask) (l : list Row) :
  (forall r, In r l -> xorb (p r) (q r) = true) ->
  List.length (List.filter m l)
  = (List.length (List.filter (mask_and p m) l)
     + List.length (List.filter (mask_and q m) l))%nat.
Proof.
  induction l as [|r l IH]; intros H; [reflexivity|].
  assert (IH' := IH (fun x Hx => H x (or_intror Hx))).
  assert (Hr := H r (or_introl eq_refl)).
  simpl. unfold mask_and in *.
  destruct (p r), (q r), (m r); simpl in *; try discriminate; lia.
Qed.

Lemma h2h_matches_In (df : DataFrame) (home away : string) (n : nat) (r : Row) :
  In r (rows (h2h_matches df home away n)) -> h2h_mask home away r = true.
Proof.
  unfold h2h_matches. simpl. intros H.
  now apply firstn_In, sort_desc_In, filter_In in H.
Qed.

(** The draws of a snapshot are the drawn rows of the home side plus the
    drawn rows of the away side: a drawn match with both of its rows in the
    window is counted on both sides. *)
Lemma get_head_to_head_draws_both_sides
    (df : DataFrame) (home away : string) (n : nat) :
  home <> away ->
  H2H.draws (get_head_to_head df home away n)
  = mask_sum (mask_and (col_eq Team home) (col_eq Result "D"))
             (h2h_matches df home away n)
    + mask_sum (mask_and (col_eq Team away) (col_eq Result "D"))
               (h2h_matches df home away n).
Proof.
  intros Hne. unfold get_head_to_head, mask_sum. cbv zeta. cbn [H2H.draws].
  rewrite (filter_two_sides (col_eq Result "D") (col_eq Team home) (col_eq Team away)).
  - lia.
  - intros r Hr. apply h2h_matches_In in Hr.
    unfold h2h_mask, mask_or, mask_and, col_eq in *.
    destruct (String.eqb_spec (Team r) home) as [E1|E1];
      destruct (String.eqb_spec (Team r) away) as [E2|E2]; simpl in *;
      try reflexivity; try congruence.
Qed.

(** C2. On a store with one win and one draw between two teams, both stored
    from both sides, the window of 5 holds the four rows; the one win is
    counted once in [home_wins], and the one drawn match is counted twice
    in [draws]. *)
Theorem get_head_to_head_counts_draw_twice :
  len (h2h_matches one_win_one_draw "Arsenal" "Chelsea" 5) = 4%nat
  /\ H2H.home_wins (get_head_to_head one_win_one_draw "Arsenal" "Chelsea" 5) = 1
  /\ H2H.away_wins (get_head_to_head one_win_one_draw "Arsenal" "Chelsea" 5) = 0
  /\ spec_drawn_matches (h2h_matches one_win_one_draw "Arsenal" "Chelsea" 5) = 1
  /\ H2H.draws (get_head_to_head one_win_one_draw "Arsenal" "Chelsea" 5) = 2.
Proof. repeat split. Qed.

(** ** Windows *)

Lemma ltb_false_leb (a b : string) : String.ltb a b = false <-> String.leb b a = true.
Proof.
  unfold String.ltb, String.leb. rewrite (String.compare_antisym b a).
  destruct (String.compare a b); simpl; split; congruence.
Qed.

Lemma not_earlier_trans (a b c : Row) :
  not_earlier a b -> not_earlier b c -> not_earlier a c.
Proof.
  unfold not_earlier. rewrite !ltb_false_leb. intros H1 H2.
  apply Is_true_true. apply Is_true_true in H1, H2.
  exact (@transitivity _ String.le _ (date c) (date b) (date a) H2 H1).
Qed.

Lemma sort_desc_strongly_sorted (l : list Row) :
  StronglySorted not_earlier (sort_desc l).
Proof.
  apply Sorted_StronglySorted; [|apply sort_desc_sorted].
  intros a b c. apply not_earlier_trans.
Qed.

Lemma strongly_sorted_app (l1 l2 : list Row) :
  StronglySorted not_earlier (l1 ++ l2)%list ->
  StronglySorted not_earlier l1
  /\ (forall a b, In a l1 -> In b l2 -> not_earlier a b).
Proof.
  induction l1 as [|x l1 IH]; simpl; intros H.
  - split; [constructor | intros a b []].
  - apply StronglySorted_inv in H as [Hs Hx].
    destruct (IH Hs) as [IH1 IH2].
    apply Forall_app in Hx as [Hx1 Hx2]. split.
    + now constructor.
    + intros a b [<- | Ha] Hb.
      * rewrite List.Forall_forall in Hx2. now apply Hx2.
      * now apply IH2.
Qed.

(** The window of any selection: it is cut from the selected rows, it has
    [n] rows or all of them, no row in it is followed by a more recent
    one, and no row left out is more recent than a row kept. *)
Theorem window_holds_most_recent (m : mask) (df : DataFrame) (n : nat) :
  exists older,
    Permutation (rows (head n (sort_values_date_desc (select m df))) ++ older)%list
                (List.filter m (rows df))
    /\ len (head n (sort_values_date_desc (select m df)))
       = Nat.min n (List.length (List.filter m (rows df)))
    /\ Sorted not_earlier (rows (head n (sort_values_date_desc (select m df))))
    /\ (forall a b,
          In a (rows (head n (sort_values_date_desc (select m df)))) ->
          In b older -> not_earlier a b).
Proof.
  unfold len. simpl.
  exists (skipn n (sort_desc (List.filter m (rows df)))).
  pose proof (sort_desc_strongly_sorted (List.filter m (rows df))) as Hs.
  rewrite <- (firstn_skipn n (sort_desc (List.filter m (rows df)))) in Hs.
  apply strongly_sorted_app in Hs as [Hs1 Hs2].
  repeat split.
  - rewrite firstn_skipn. apply sort_desc_perm.
  - now rewrite length_firstn, sort_desc_length.
  - now apply StronglySorted_Sorted.
  - exact Hs2.
Qed.

(** ** Bounds on the counts *)

Lemma result_counts_le (l : list Row) :
  (List.length (List.filter (col_eq Result "W") l)
   + List.length (List.filter (col_eq Result "D") l)
   + List.length (List.filter (col_eq Result "L") l) <= List.length l)%nat.
Proof.
  induction l as [|r l IH]; simpl; [lia|]. unfold col_eq in *.
  destruct (String.eqb_spec (Result r) "W") as [E|E];
    destruct (String.eqb_spec (Result r) "D") as [E'|E'];
    destruct (String.eqb_spec (Result r) "L") as [E''|E''];
    simpl; try congruence; lia.
Qed.

(** Whatever the store holds in its [Result] column, the three counts of a
    form snapshot are not negative and together do not exceed the size of
    the window, which is the smaller of [n] and the number of the team's
    rows. *)
Theorem get_team_form_counts_bounded (df : DataFrame) (team : string) (n : nat) :
  0 <= Form.wins (get_team_form df team n)
  /\ 0 <= Form.draws (get_team_form df team n)
  /\ 0 <= Form.losses (get_team_form df team n)
  /\ Form.wins (get_team_form df team n) + Form.draws (get_team_form df team n)
     + Form.losses (get_team_form df team n)
     <= Z.of_nat (Nat.min n (List.length (List.filter (col_eq Team team) (rows df)))).
Proof.
  rewrite <- recent_matches_length.
  unfold get_team_form, mask_sum, len. cbv zeta.
  cbn [Form.wins Form.draws Form.losses].
  pose proof (result_counts_le (rows (recent_matches df team n))). lia.
Qed.

Lemma h2h_counts_le (home away : string) (l : list Row) :
  home <> away ->
  (List.length (List.filter (mask_and (col_eq Team home) (col_eq Result "W")) l)
   + List.length (List.filter (mask_and (col_eq Team away) (col_eq Result "W")) l)
   + List.length (List.filter (col_eq Result "D") l) <= List.length l)%nat.
Proof.
  intros Hne. induction l as [|r l IH]; simpl; [lia|].
  unfold mask_and, col_eq in *.
  destruct (String.eqb_spec (Team r) home) as [E1|E1];
    destruct (String.eqb_spec (Team r) away) as [E2|E2];
    destruct (String.eqb_spec (Result r) "W") as [E3|E3];
    destruct (String.eqb_spec (Result r) "D") as [E4|E4];
    simpl; try congruence; lia.
Qed.

Lemma h2h_matches_length (df : DataFrame) (home away : string) (n : nat) :
  len (h2h_matches df home away n)
  = Nat.min n (List.length (List.filter (h2h_mask home away) (rows df))).
Proof.
  unfold len, h2h_matches. simpl. now rewrite length_firstn, sort_desc_length.
Qed.

(** For two different names the three counts of a head-to-head snapshot
    are not negative and together do not exceed the size of the window,
    hence not [n]. *)
Theorem get_head_to_head_counts_bounded
    (df : DataFrame) (home away : string) (n : nat) :
  home <> away ->
  0 <= H2H.home_wins (get_head_to_head df home away n)
  /\ 0 <= H2H.away_wins (get_head_to_head df home away n)
  /\ 0 <= H2H.draws (get_head_to_head df home away n)
  /\ H2H.home_wins (get_head_to_head df home away n)
     + H2H.away_wins (get_head_to_head df home away n)
     + H2H.draws (get_head_to_head df home away n)
     <= Z.of_nat (len (h2h_matches df home away n))
  /\ Z.of_nat (len (h2h_matches df home away n)) <= Z.of_nat n.
Proof.
  intros Hne. rewrite (h2h_matches_length df home away n) at 2.
  unfold get_head_to_head, mask_sum, len. cbv zeta.
  cbn [H2H.home_wins H2H.away_wins H2H.draws].
  pose proof (h2h_counts_le home away (rows (h2h_matches df home away n)) Hne). lia.
Qed.

Lemma get_head_to_head_counts_bounded_witness :
  "Arsenal" <> "Chelsea"
  /\ H2H.home_wins (get_head_to_head one_win_one_draw "Arsenal" "Chelsea" 5)
     + H2H.away_wins (get_head_to_head one_win_one_draw "Arsenal" "Chelsea" 5)
     + H2H.draws (get_head_to_head one_win_one_draw "Arsenal" "Chelsea" 5)
     <= Z.of_nat (len (h2h_matches one_win_one_draw "Arsenal" "Chelsea" 5)).
Proof.
  split; [discriminate|].
  destruct (get_head_to_head_counts_bounded one_win_one_draw "Arsenal" "Chelsea" 5)
    as (_ & _ & _ & H & _); [discriminate | exact H].
Defined.

Lemma filter_firstn_le (p : mask) (n : nat) (l : list Row) :
  (List.length (List.filter p (firstn n l)) <= List.length (List.filter p l))%nat.
Proof.
  revert n. induction l as [|r l IH]; intros [|n]; simpl; try lia.
  specialize (IH n). destruct (p r); simpl; lia.
Qed.

Lemma mask_sum_recent_mono (p : mask) (df : DataFrame) (team : string) (n m : nat) :
  (n <= m)%nat ->
  mask_sum p (recent_matches df team n) <= mask_sum p (recent_matches df team m).
Proof.
  intros H. unfold mask_sum, recent_matches. simpl.
  set (l := sort_desc (List.filter (col_eq Team team) (rows df))).
  replace (firstn n l) with (firstn n (firstn m l))
    by (rewrite firstn_firstn; f_equal; lia).
  pose proof (filter_firstn_le p n (firstn m l)). lia.
Qed.

(** A wider window never lowers a count: wins, draws and losses over the
    [n] most recent rows are at most those over the [m] most recent, for
    [n <= m]; so the wins that enter the score (5 rows) are at most the wins
    printed in the form block (10 rows). *)
Theorem get_team_form_counts_monotone
    (df : DataFrame) (team : string) (n m : nat) :
  (n <= m)%nat ->
  Form.wins (get_team_form df team n) <= Form.wins (get_team_form df team m)
  /\ Form.draws (get_team_form df team n) <= Form.draws (get_team_form df team m)
  /\ Form.losses (get_team_form df team n) <= Form.losses (get_team_form df team m).
Proof.
  intros H. unfold get_team_form. cbv zeta. cbn [Form.wins Form.draws Form.losses].
  repeat split; now apply mask_sum_recent_mono.
Qed.

Lemma get_team_form_counts_monotone_witness :
  (5 <= 10)%nat
  /\ Form.wins (get_team_form arsenal_store "Arsenal" 5)
     <= Form.wins (get_team_form arsenal_store "Arsenal" 10).
Proof.
  split; [lia|].
  destruct (get_team_form_counts_monotone arsenal_store "Arsenal" 5 10) as (H & _);
    [lia | exact H].
Defined.

(** ** The scorer and the order of the two names *)

Lemma spec_diff_swap (df : DataFrame) (a b : string) :
  spec_diff df b a = - spec_diff df a b.
Proof.
  unfold spec_diff, spec_home_score, spec_away_score, get_head_to_head.
  cbv zeta. cbn [H2H.home_wins H2H.away_wins].
  rewrite (h2h_matches_sym df b a 5). lia.
Qed.

(** The scorer has no home advantage: with the two names exchanged it
    returns the same string, naming the same winner or ["Draw"]. *)
Theorem rule_based_prediction_order_irrelevant (df : DataFrame) (a b : string) :
  rule_based_prediction df a b = rule_based_prediction df b a.
Proof.
  rewrite !rule_based_prediction_unfold, (spec_diff_swap df a b).
  destruct (Z.geb_spec (spec_diff df a b) 2);
    destruct (Z.leb_spec (spec_diff df a b) (-2));
    destruct (Z.geb_spec (- spec_diff df a b) 2);
    destruct (Z.leb_spec (- spec_diff df a b) (-2)); try lia; reflexivity.
Qed.

(** ** Teams that the store does not know *)

Lemma absent_no_row (df : DataFrame) (team : string) (r : Row) :
  absent df team -> In r (rows df) -> col_eq Team team r = false.
Proof.
  unfold absent. intros H Hr.
  destruct (col_eq Team team r) eqn:E; [|reflexivity].
  assert (Hin : In r (List.filter (col_eq Team team) (rows df)))
    by (apply filter_In; now split).
  rewrite H in Hin. destruct Hin.
Qed.

Lemma h2h_matches_In_store (df : DataFrame) (home away : string) (n : nat) (r : Row) :
  In r (rows (h2h_matches df home away n)) -> In r (rows df).
Proof.
  unfold h2h_matches. simpl. intros H.
  now apply firstn_In, sort_desc_In, filter_In in H.
Qed.

Lemma filter_none (p : mask) (l : list Row) :
  (forall r, In r l -> p r = false) -> List.filter p l = [].
Proof.
  induction l as [|r l IH]; intros H; simpl; [reflexivity|].
  rewrite (H r (or_introl eq_refl)). apply IH. intros x Hx. apply H. now right.
Qed.

(** No head-to-head win is counted for an absent team, on either side. *)
Lemma h2h_wins_absent (df : DataFrame) (team home away : string) (n : nat) :
  absent df team ->
  mask_sum (mask_and (col_eq Team team) (col_eq Result "W"))
           (h2h_matches df home away n) = 0.
Proof.
  intros H. unfold mask_sum. rewrite filter_none; [reflexivity|].
  intros r Hr. apply h2h_matches_In_store in Hr.
  unfold mask_and. now rewrite (absent_no_row df team r H Hr).
Qed.

Lemma mask_sum_nonneg (p : mask) (d : DataFrame) : 0 <= mask_sum p d.
Proof. unfold mask_sum. lia. Qed.

(** An absent team scores nothing; the other side cannot score less. *)
Lemma spec_diff_absent_home (df : DataFrame) (t u : string) :
  absent df t -> spec_diff df t u <= 0.
Proof.
  intros H. unfold spec_diff, spec_home_score, spec_away_score. cbv zeta.
  destruct (comparisons_absent df t u 5 (or_introl H)) as [-> ->].
  rewrite (get_team_form_absent df t 5 H) at 1. cbn [Form.wins].
  unfold get_head_to_head. cbv zeta. cbn [H2H.home_wins H2H.away_wins].
  rewrite (h2h_wins_absent df t t u 5 H).
  pose proof (mask_sum_nonneg (mask_and (col_eq Team u) (col_eq Result "W"))
                (h2h_matches df t u 5)).
  assert (0 <= Form.wins (get_team_form df u 5)) by apply mask_sum_nonneg.
  destruct (gt (Form.avg_gf (get_team_form df u 5)) (Form.avg_ga (get_team_form df t 5)));
    destruct (gt (Form.avg_xg (get_team_form df u 5)) (Form.avg_xg (get_team_form df t 5)));
    lia.
Qed.

(** A team with no row in the store is never the predicted winner, whether
    it is given as the home or as the away team. *)
Theorem absent_team_never_predicted_to_win (df : DataFrame) (t u : string) :
  absent df t ->
  rule_based_prediction df t u <> t ++ " to win"
  /\ rule_based_prediction df u t <> t ++ " to win".
Proof.
  intros H.
  assert (Hhome : rule_based_prediction df t u <> t ++ " to win").
  { destruct (String.eqb_spec t u) as [<- | Hne].
    - rewrite rule_based_prediction_unfold, spec_diff_self. simpl.
      intros E. symmetry in E. now apply to_win_not_draw in E.
    - rewrite rule_based_prediction_unfold.
      pose proof (spec_diff_absent_home df t u H).
      destruct (Z.geb_spec (spec_diff df t u) 2); [lia|].
      destruct (spec_diff df t u <=? -2); intros E.
      + apply append_inv_tail in E. congruence.
      + symmetry in E. now apply to_win_not_draw in E. }
  split; [exact Hhome|].
  destruct (String.eqb_spec t u) as [<- | Hne]; [exact Hhome|].
  rewrite rule_based_prediction_unfold, (spec_diff_swap df t u).
  pose proof (spec_diff_absent_home df t u H).
  destruct (- spec_diff df t u >=? 2); intros E.
  - apply append_inv_tail in E. congruence.
  - destruct (Z.leb_spec (- spec_diff df t u) (-2)); [lia|].
    symmetry in E. now apply to_win_not_draw in E.
Qed.

Lemma absent_team_never_predicted_to_win_witness :
  absent arsenal_store "Leeds United"
  /\ rule_based_prediction arsenal_store "Leeds United" "Arsenal"
     <> "Leeds United" ++ " to win".
Proof.
  split; [reflexivity|].
  apply (absent_team_never_predicted_to_win arsenal_store "Leeds United" "Arsenal").
  reflexivity.
Defined.

(** Two teams that the store does not know draw. *)
Theorem rule_based_prediction_both_absent (df : DataFrame) (home away : string) :
  absent df home -> absent df away -> rule_based_prediction df home away = "Draw".
Proof.
  intros Hh Ha.
  pose proof (spec_diff_absent_home df home away Hh) as H1.
  pose proof (spec_diff_absent_home df away home Ha) as H2.
  rewrite spec_diff_swap in H2.
  rewrite rule_based_prediction_unfold.
  destruct (Z.geb_spec (spec_diff df home away) 2); [lia|].
  destruct (Z.leb_spec (spec_diff df home away) (-2)); [lia | reflexivity].
Qed.

Lemma rule_based_prediction_both_absent_witness :
  absent arsenal_store "Leeds United" /\ absent arsenal_store "Burnley"
  /\ rule_based_prediction arsenal_store "Leeds United" "Burnley" = "Draw".
Proof.
  split; [reflexivity|]. split; [reflexivity|].
  apply (rule_based_prediction_both_absent arsenal_store "Leeds United" "Burnley");
    reflexivity.
Defined.

(** The form block of a team that the store does not know: no matches, no
    counts, and averages printed as [nan]. *)
Theorem summarize_form_absent (df : DataFrame) (team : string) (n : nat) :
  absent df team ->
  summarize_form (recent_matches df team n) team
  = team ++ " - Last 0 Matches:
- Wins: 0, Draws: 0, Losses: 0
- Avg Goals Scored: nan, Avg Goals Conceded: nan".
Proof.
  intros H. unfold summarize_form, mask_sum, mean, len.
  rewrite (absent_recent df team n H). reflexivity.
Qed.

Lemma summarize_form_absent_witness :
  absent arsenal_store "Leeds United"
  /\ summarize_form (recent_matches arsenal_store "Leeds United" 10) "Leeds United"
     = "Leeds United" ++ " - Last 0 Matches:
- Wins: 0, Draws: 0, Losses: 0
- Avg Goals Scored: nan, Avg Goals Conceded: nan".
Proof.
  split; [reflexivity|].
  apply (summarize_form_absent arsenal_store "Leeds United" 10). reflexivity.
Defined.

(** ** The text blocks, line by line *)

(** For a name without line boundary the form block has exactly three
    lines: the header with the number of rows of the window, the three
    counts, and the two averages with two decimals. *)
Theorem summarize_form_three_lines (matches : DataFrame) (team : string) :
  single_line team = true ->
  splitlines (summarize_form matches team)
  = [ team ++ " - Last " ++ str_int (Z.of_nat (len matches)) ++ " Matches:";
      "- Wins: " ++ str_int (mask_sum (col_eq Result "W") matches)
      ++ ", Draws: " ++ str_int (mask_sum (col_eq Result "D") matches)
      ++ ", Losses: " ++ str_int (mask_sum (col_eq Result "L") matches);
      "- Avg Goals Scored: " ++ format_2f (mean GF matches)
      ++ ", Avg Goals Conceded: " ++ format_2f (mean GA matches) ].
Proof. apply summarize_form_splitlines. Qed.

Lemma summarize_form_three_lines_witness :
  single_line "Arsenal" = true
  /\ List.length
       (splitlines (summarize_form (recent_matches arsenal_store "Arsenal" 10) "Arsenal"))
     = 3%nat.
Proof.
  split; [reflexivity|].
  rewrite (summarize_form_three_lines (recent_matches arsenal_store "Arsenal" 10) "Arsenal");
    reflexivity.
Defined.

(** For names without line boundary the head-to-head block is the one
    sentence about missing data when no row is selected, and otherwise two
    lines: the header with the number of rows, and the three counts. *)
Theorem summarize_h2h_one_or_two_lines (matches : DataFrame) (home away : string) :
  single_line home = true -> single_line away = true ->
  splitlines (summarize_h2h matches home away)
  = match rows matches with
    | [] => [ "No recent head-to-head match data available." ]
    | _ :: _ =>
        [ "Head-to-Head (" ++ home ++ " vs " ++ away ++ ") - Last "
          ++ str_int (Z.of_nat (len matches)) ++ " Matches:";
          "- " ++ home ++ " Wins: "
          ++ str_int (mask_sum (mask_and (col_eq Team home) (col_eq Result "W")) matches)
          ++ ", " ++ away ++ " Wins: "
          ++ str_int (mask_sum (mask_and (col_eq Team away) (col_eq Result "W")) matches)
          ++ ", Draws: " ++ str_int (mask_sum (col_eq Result "D") matches) ]
    end.
Proof.
  intros Hh Ha. rewrite (summarize_h2h_splitlines matches home away Hh Ha).
  unfold empty. now destruct (rows matches).
Qed.

Lemma summarize_h2h_one_or_two_lines_witness :
  single_line "Arsenal" = true /\ single_line "Chelsea" = true
  /\ List.length
       (splitlines (summarize_h2h (h2h_matches one_win_one_draw "Arsenal" "Chelsea" 10)
                                  "Arsenal" "Chelsea"))
     = 2%nat.
Proof.
  split; [reflexivity|]. split; [reflexivity|].
  rewrite (summarize_h2h_one_or_two_lines
             (h2h_matches one_win_one_draw "Arsenal" "Chelsea" 10) "Arsenal" "Chelsea");
    reflexivity.
Defined.

(** ** The handler on every request *)

(** Whatever the store and the body, the handler ends with a JSON object:
    neither subscript of the discussion is ever out of range. *)
Theorem predict_never_raises (df : DataFrame) (data : gmap string string) :
  exists response, outcome (predict df data) = inr response.
Proof.
  destruct (data !! "home_team") as [h|] eqn:Hh;
    [destruct (data !! "away_team") as [a|] eqn:Ha|].
  - destruct (String.eqb_spec h "") as [->|Hhne];
      [|destruct (String.eqb_spec a "") as [->|Hane]].
    + unfold predict. rewrite Hh, Ha. eexists. reflexivity.
    + unfold predict. rewrite Hh, Ha.
      rewrite (proj2 (String.eqb_neq _ _) Hhne). eexists. reflexivity.
    + destruct (predict_success df data h a Hh Ha Hhne Hane)
        as (hl & al & xl & _ & _ & _ & Hp).
      rewrite Hp. eexists. reflexivity.
  - unfold predict. rewrite Hh, Ha. eexists. reflexivity.
  - unfold predict. rewrite Hh. eexists. reflexivity.
Qed.

(** For a body whose team fields, where present, are strings: the error
    object is the answer exactly when a name is missing or empty; a body
    with two non-empty names, known to the store or not, is never answered
    with it. *)
Theorem predict_error_iff_missing (df : DataFrame) (data : gmap string string) :
  outcome (predict df data) = inr (JObject [("error", JString "Missing team names.")])
  <-> missing_or_empty (data !! "home_team") \/ missing_or_empty (data !! "away_team").
Proof.
  unfold missing_or_empty.
  destruct (data !! "home_team") as [h|] eqn:Hh;
    [destruct (data !! "away_team") as [a|] eqn:Ha|].
  - destruct (String.eqb_spec h "") as [->|Hhne];
      [|destruct (String.eqb_spec a "") as [->|Hane]].
    + unfold predict. rewrite Hh, Ha. split; [auto | reflexivity].
    + unfold predict. rewrite Hh, Ha, (proj2 (String.eqb_neq _ _) Hhne).
      split; [auto | reflexivity].
    + destruct (predict_success df data h a Hh Ha Hhne Hane)
        as (hl & al & xl & _ & _ & _ & Hp).
      rewrite Hp. split; [discriminate|].
      intros [[H|H]|[H|H]]; congruence.
  - unfold predict. rewrite Hh, Ha. split; [auto | reflexivity].
  - unfold predict. rewrite Hh. split; [auto | reflexivity].
Qed.

(** What a body with two non-empty names is answered with: the prediction
    is the scorer's result for the two names, one of its three strings; the
    three statistics are the form blocks of the two teams and the
    head-to-head block, all over windows of 10; and the scorer was called
    once, before the three calls of the formatter. *)
Theorem predict_answer_fields
    (df : DataFrame) (data : gmap string string) (home away : string) :
  data !! "home_team" = Some home -> data !! "away_team" = Some away ->
  home <> "" -> away <> "" ->
  exists response,
    outcome (predict df data) = inr response
    /\ field "error" response = None
    /\ field "prediction" response = Some (JString (rule_based_prediction df home away))
    /\ (rule_based_prediction df home away = home ++ " to win"
        \/ rule_based_prediction df home away = away ++ " to win"
        \/ rule_based_prediction df home away = "Draw")
    /\ field "stats" response
       = Some (JArray
           [JString (summarize_form (recent_matches df home 10) home);
            JString (summarize_form (recent_matches df away 10) away);
            JString (summarize_h2h (h2h_matches df home away 10) home away)])
    /\ trace (predict df data)
       = [Scoring home away; FormSummary home; FormSummary away; H2HSummary home away].
Proof.
  intros Hh Ha Hhne Hane.
  destruct (predict_success df data home away Hh Ha Hhne Hane)
    as (hl & al & xl & _ & _ & _ & Hp).
  rewrite Hp. eexists. split; [reflexivity|].
  repeat split. apply rule_based_prediction_cases.
Qed.

Lemma predict_answer_fields_witness :
  arsenal_wolves !! "home_team" = Some "Arsenal"
  /\ trace (predict arsenal_store arsenal_wolves)
     = [Scoring "Arsenal" "Wolves"; FormSummary "Arsenal"; FormSummary "Wolves";
        H2HSummary "Arsenal" "Wolves"].
Proof.
  split; [vm_compute; reflexivity|].
  destruct (predict_answer_fields arsenal_store arsenal_wolves "Arsenal" "Wolves")
    as (r & _ & _ & _ & _ & _ & H);
    [vm_compute; reflexivity | vm_compute; reflexivity | discriminate | discriminate |].
  exact H.
Defined.

(** For names without line boundary the discussion quotes the counts of
    wins, draws and losses over each team's last 10 rows (the prediction
    next to them is scored over the last 5) and the head-to-head counts over
    the last 10 selected rows, or the sentence about missing data. *)
Theorem predict_discussion_quotes_counts
    (df : DataFrame) (data : gmap string string) (home away : string) :
  data !! "home_team" = Some home -> data !! "away_team" = Some away ->
  home <> "" -> away <> "" ->
  single_line home = true -> single_line away = true ->
  let hm := recent_matches df home 10 in
  let am := recent_matches df away 10 in
  let xm := h2h_matches df home away 10 in
  exists response,
    outcome (predict df data) = inr response
    /\ field "discussion" response
       = Some (JString
           (lstrip (home ++ " ") ++ "comes into this fixture with "
            ++ form_counts (mask_sum (col_eq Result "W") hm)
                           (mask_sum (col_eq Result "D") hm)
                           (mask_sum (col_eq Result "L") hm) ++ ". "
            ++ away ++ " shows "
            ++ form_counts (mask_sum (col_eq Result "W") am)
                           (mask_sum (col_eq Result "D") am)
                           (mask_sum (col_eq Result "L") am) ++ ". "
            ++ "The head-to-head record suggests: "
            ++ (if empty xm then no_h2h_data
                else h2h_counts home away
                       (mask_sum (mask_and (col_eq Team home) (col_eq Result "W")) xm)
                       (mask_sum (mask_and (col_eq Team away) (col_eq Result "W")) xm)
                       (mask_sum (col_eq Result "D") xm)) ++ ". "
            ++ "Considering form and past performance, this match is predicted to end in: "
            ++ lower (rule_based_prediction df home away) ++ ".")).
Proof.
  intros Hh Ha Hhne Hane Hsh Hsa hm am xm.
  destruct (predict_success df data home away Hh Ha Hhne Hane)
    as (hl & al & xl & Hhl & Hal & Hxl & Hp).
  destruct (quoted_fragments df home away Hsh Hsa) as (Fh & Fa & Fx).
  cbv zeta in Fh, Fa, Fx. fold hm in Fh. fold am in Fa. fold xm in Fx.
  fold hm in Hhl. fold am in Hal. fold xm in Hxl.
  rewrite Fh in Hhl. rewrite Fa in Hal. rewrite Fx in Hxl.
  injection Hhl as <-. injection Hal as <-. injection Hxl as <-.
  rewrite Hp. eexists. split; reflexivity.
Qed.

Lemma predict_discussion_quotes_counts_witness :
  single_line "Arsenal" = true /\ single_line "Wolves" = true
  /\ exists response,
       outcome (predict arsenal_store arsenal_wolves) = inr response
       /\ field "discussion" response
          = Some (JString "Arsenal comes into this fixture with - Wins: 3, Draws: 1, Losses: 3. Wolves shows - Wins: 0, Draws: 0, Losses: 1. The head-to-head record suggests: - Arsenal Wins: 1, Wolves Wins: 0, Draws: 0. Considering form and past performance, this match is predicted to end in: arsenal to win.").
Proof.
  split; [reflexivity|]. split; [reflexivity|].
  destruct (predict_discussion_quotes_counts arsenal_store arsenal_wolves "Arsenal" "Wolves")
    as (r & Hr & Hd);
    [vm_compute; reflexivity | vm_compute; reflexivity | discriminate | discriminate
    | reflexivity | reflexivity |].
  exists r. split; [exact Hr|]. rewrite Hd. vm_compute. reflexivity.
Defined.

Lemma get_head_to_head_draws_both_sides_witness :
  "Arsenal" <> "Chelsea"
  /\ H2H.draws (get_head_to_head one_win_one_draw "Arsenal" "Chelsea" 5) = 1 + 1.
Proof.
  split; [discriminate|].
  rewrite (get_head_to_head_draws_both_sides one_win_one_draw "Arsenal" "Chelsea" 5);
    [reflexivity | discriminate].
Defined.

(** ** What does not read the expected goals *)

Lemma filter_map_erase (m : mask) (l : list Row) :
  (forall r, m (erase_xG r) = m r) ->
  List.filter m (List.map erase_xG l) = List.map erase_xG (List.filter m l).
Proof.
  intros H. induction l as [|r l IH]; simpl; [reflexivity|].
  rewrite H. destruct (m r); simpl; now rewrite IH.
Qed.

Lemma insert_desc_erase (r : Row) (l : list Row) :
  insert_desc (erase_xG r) (List.map erase_xG l)
  = List.map erase_xG (insert_desc r l).
Proof.
  induction l as [|y l IH]; simpl; [reflexivity|].
  destruct (String.ltb (date r) (date y)); simpl; [now rewrite IH | reflexivity].
Qed.

Lemma sort_desc_erase (l : list Row) :
  sort_desc (List.map erase_xG l) = List.map erase_xG (sort_desc l).
Proof.
  induction l as [|r l IH]; simpl; [reflexivity|].
  now rewrite IH, insert_desc_erase.
Qed.

(** Selecting, sorting and cutting commute with blanking the cells. *)
Lemma window_erase (m : mask) (df : DataFrame) (n : nat) :
  (forall r, m (erase_xG r) = m r) ->
  head n (sort_values_date_desc (select m (without_xG df)))
  = without_xG (head n (sort_values_date_desc (select m df))).
Proof.
  intros H. unfold head, sort_values_date_desc, select, without_xG. simpl.
  now rewrite (filter_map_erase m _ H), sort_desc_erase, firstn_map.
Qed.

Lemma mask_sum_erase (m : mask) (d : DataFrame) :
  (forall r, m (erase_xG r) = m r) -> mask_sum m (without_xG d) = mask_sum m d.
Proof.
  intros H. unfold mask_sum, without_xG. simpl.
  now rewrite (filter_map_erase m _ H), length_map.
Qed.

Lemma mean_erase (col : Row -> number) (d : DataFrame) :
  (forall r, col (erase_xG r) = col r) -> mean col (without_xG d) = mean col d.
Proof.
  intros H. unfold mean, without_xG. simpl. rewrite map_map.
  f_equal. apply map_ext, H.
Qed.

Lemma len_erase (d : DataFrame) : len (without_xG d) = len d.
Proof. unfold len, without_xG. simpl. apply length_map. Qed.

Lemma empty_erase (d : DataFrame) : empty (without_xG d) = empty d.
Proof. unfold empty, without_xG. simpl. now destruct (rows d). Qed.

(** The two text blocks and the head-to-head snapshot never read the
    expected goals: with every [xG] cell of the store blanked they are what
    they were, for every window size. *)
Theorem statistics_ignore_xG (df : DataFrame) (home away : string) (n : nat) :
  summarize_form (recent_matches (without_xG df) home n) home
  = summarize_form (recent_matches df home n) home
  /\ summarize_h2h (h2h_matches (without_xG df) home away n) home away
     = summarize_h2h (h2h_matches df home away n) home away
  /\ get_head_to_head (without_xG df) home away n = get_head_to_head df home away n.
Proof.
  unfold recent_matches, h2h_matches, get_head_to_head, h2h_matches.
  rewrite !window_erase by reflexivity.
  unfold summarize_form, summarize_h2h. cbv zeta.
  rewrite !mask_sum_erase, !mean_erase, !len_erase, !empty_erase by reflexivity.
  repeat split.
Qed.
